(** * bubble-proxy: the availability monitor of [monitor/check.py]

    A shallow embedding of the monitor script: the probe [check_health],
    the Telegram notifier ([send_message], [send_alert], [send_recovery])
    and the debouncing state machine [handle_check_result], followed by
    the properties of the written specification that concern them.

    Conventions of the embedding.
    - Python [int]s that only count (the two consecutive counters, the two
      thresholds) are [nat]; other integers (status codes, the timeout,
      the downtime duration) are [Z].
    - [time.time()] returns a finite binary64 float, which is a rational
      number: clock readings are in [Q] and their difference is taken
      exactly, as the float subtraction is for two readings within a
      factor two of each other (those of one Unix clock); where the
      float subtraction would round, the embedding does not follow it.
      [int(x)] truncates toward zero ([Py.int]).
    - The clock, the HTTP request of the probe and the HTTP post of the
      notifier are the environment: each function receives, as extra
      arguments, what the environment answers during the call.
    - An object of the program is mutated in place, so a function that
      raises leaves behind the fields it had already assigned: every
      function returns the monitor as it stands when the call ends,
      together with the way the call ended ([Returns] or [Raises]).
    - Calls to [logger] do not touch the monitor and are not part of the
      model; the two log lines that mark a transition are represented by
      the [Transition] a call reports. *)

From Stdlib Require Import Bool Arith ZArith QArith Lia List.
From Stdlib Require Import Ascii String DecimalString.
Import ListNotations.

Local Open Scope nat_scope.
Local Open Scope string_scope.

(** ** Python values and formatting *)

Module Py.

(** [str(n)] for a Python int. *)
Definition str_int (z : Z) : string := NilZero.string_of_int (Z.to_int z).

Definition str_nat (n : nat) : string := NilZero.string_of_uint (Nat.to_uint n).

(** [int(x)] on a float: truncation toward zero. *)
Definition int (q : Q) : Z := Z.quot (Qnum q) (Z.pos (Qden q)).

(** Truth value of a float: every value but zero is true. *)
Definition truthy_float (q : Q) : bool := negb (Qnum q =? 0)%Z.

(** Truth value of an int. *)
Definition truthy_int (z : Z) : bool := negb (z =? 0)%Z.

(** Truth value of a str: every string but the empty one is true. *)
Definition truthy_str (s : string) : bool :=
  match s with EmptyString => false | String _ _ => true end.

(** Decimal rendering of [n] on at least [width] digits, zero padded. *)
Fixpoint zeros (n : nat) : string :=
  match n with
  | O => ""
  | S k => "0" ++ zeros k
  end.

Definition zero_pad (width : nat) (s : string) : string :=
  zeros (width - String.length s) ++ s.

Definition str_nat_pad (width n : nat) : string := zero_pad width (str_nat n).

(** Nearest integer to [num/den], ties to even, for [0 <= num]. *)
Definition round_half_even (num : Z) (den : positive) : Z :=
  let k := (num / Z.pos den)%Z in
  let r := (num mod Z.pos den)%Z in
  match (2 * r ?= Z.pos den)%Z with
  | Lt => k
  | Gt => (k + 1)%Z
  | Eq => if Z.even k then k else (k + 1)%Z
  end.

(** [f"{x:.2f}"]: two digits after the point, rounded to nearest. *)
Definition format_2f (q : Q) : string :=
  let n := round_half_even (Z.abs (Qnum q) * 100) (Qden q) in
  let body := str_int (n / 100) ++ "." ++ str_nat_pad 2 (Z.to_nat (n mod 100)) in
  if (Qnum q <? 0)%Z then "-" ++ body else body.

Definition nl : string := String (ascii_of_nat 10) EmptyString.

(** A reading of [datetime.now()]. *)
Record datetime : Type := mk_datetime {
  year : nat; month : nat; day : nat;
  hour : nat; minute : nat; second : nat
}.

(** [strftime('%Y-%m-%d %H:%M:%S')]. *)
Definition strftime (d : datetime) : string :=
  str_nat_pad 4 (year d) ++ "-" ++ str_nat_pad 2 (month d) ++ "-" ++
  str_nat_pad 2 (day d) ++ " " ++ str_nat_pad 2 (hour d) ++ ":" ++
  str_nat_pad 2 (minute d) ++ ":" ++ str_nat_pad 2 (second d).

(** A raised object, seen through the [isinstance] tests that the
    [except] clauses of the program make on it, and its [str()]. *)
Record exc : Type := mk_exc {
  is_SSLError : bool;
  is_Timeout : bool;
  is_ConnectionError : bool;
  is_Exception : bool;
  exc_str : string
}.

(** How a call ends. *)
Inductive call (A : Type) : Type :=
| Returns (a : A)
| Raises (e : exc).
Arguments Returns {A} a.
Arguments Raises {A} e.

(** [s.startswith(p)]. *)
Fixpoint startswith (p s : string) : bool :=
  match p, s with
  | EmptyString, _ => true
  | String a p', String b s' => if Ascii.eqb a b then startswith p' s' else false
  | String _ _, EmptyString => false
  end.

(** [needle in hay] on strings. *)
Fixpoint contains (needle hay : string) : bool :=
  if startswith needle hay then true
  else match hay with
       | EmptyString => false
       | String _ hay' => contains needle hay'
       end.

End Py.

(** ** The data of the monitor *)

(** The dictionary that [check_health] builds and [handle_check_result]
    reads. *)
Record Outcome : Type := mk_outcome {
  success : bool;
  status_code : option Z;
  response_time : option Q;
  error : option string;
  timestamp : string
}.

(** The attributes of a [ProxyMonitor] object, [self.notifier] apart
    (it is an argument of [handle_check_result] below). *)
Record ProxyMonitor : Type := mk_monitor {
  domain : string;
  url : string;
  is_down : bool;
  downtime_start : option Q;
  consecutive_failures : nat;
  consecutive_successes : nat;
  timeout : Z;
  max_response_time : Z;
  failure_threshold : nat;
  recovery_threshold : nat
}.

(** [ProxyMonitor.__init__]. *)
Definition __init__ (domain : string) : ProxyMonitor :=
  {| domain := domain;
     url := "https://" ++ domain ++ "/health";
     is_down := false;
     downtime_start := None;
     consecutive_failures := 0;
     consecutive_successes := 0;
     timeout := 15;
     max_response_time := 5;
     failure_threshold := 2;
     recovery_threshold := 2 |}.

(** Assignments to the four mutable attributes. *)
Definition set_is_down (b : bool) (m : ProxyMonitor) : ProxyMonitor :=
  mk_monitor (domain m) (url m) b (downtime_start m)
    (consecutive_failures m) (consecutive_successes m)
    (timeout m) (max_response_time m) (failure_threshold m) (recovery_threshold m).

Definition set_downtime_start (t : option Q) (m : ProxyMonitor) : ProxyMonitor :=
  mk_monitor (domain m) (url m) (is_down m) t
    (consecutive_failures m) (consecutive_successes m)
    (timeout m) (max_response_time m) (failure_threshold m) (recovery_threshold m).

Definition set_consecutive_failures (n : nat) (m : ProxyMonitor) : ProxyMonitor :=
  mk_monitor (domain m) (url m) (is_down m) (downtime_start m)
    n (consecutive_successes m)
    (timeout m) (max_response_time m) (failure_threshold m) (recovery_threshold m).

Definition set_consecutive_successes (n : nat) (m : ProxyMonitor) : ProxyMonitor :=
  mk_monitor (domain m) (url m) (is_down m) (downtime_start m)
    (consecutive_failures m) n
    (timeout m) (max_response_time m) (failure_threshold m) (recovery_threshold m).

(** ** The probe *)

(** What [requests.get] does during one call of [check_health]: it
    returns a response, read at clock time [end_time], or it raises. *)
Inductive Probe : Type :=
| Responds (code : Z) (end_time : Q)
| Fails (e : Py.exc).

Definition with_error (msg : string) (result : Outcome) : Outcome :=
  mk_outcome (success result) (status_code result) (response_time result)
    (Some msg) (timestamp result).

(** [ProxyMonitor.check_health].  [isoformat] is the rendering of
    [datetime.now()] at entry and [start_time] the first clock reading.
    The [except] clauses are tried in the order of the source; an object
    that none of them catches leaves the function. *)
Definition check_health (self : ProxyMonitor) (isoformat : string)
    (start_time : Q) (probe : Probe) : Py.call Outcome :=
  let result := mk_outcome false None None None isoformat in
  match probe with
  | Responds code end_time =>
      let elapsed := (end_time - start_time)%Q in
      let result :=
        mk_outcome (success result) (status_code result) (Some elapsed)
          (error result) (timestamp result) in
      let result :=
        mk_outcome (success result) (Some code) (response_time result)
          (error result) (timestamp result) in
      if (code =? 200)%Z then
        Py.Returns (mk_outcome true (status_code result) (response_time result)
                      (error result) (timestamp result))
      else
        Py.Returns (with_error ("Bad status code: " ++ Py.str_int code) result)
  | Fails e =>
      if Py.is_SSLError e then
        Py.Returns (with_error ("SSL Error: " ++ Py.exc_str e) result)
      else if Py.is_Timeout e then
        Py.Returns (with_error ("Timeout after " ++ Py.str_int (timeout self) ++ "s") result)
      else if Py.is_ConnectionError e then
        Py.Returns (with_error ("Connection error: " ++ Py.exc_str e) result)
      else if Py.is_Exception e then
        Py.Returns (with_error ("Unexpected error: " ++ Py.exc_str e) result)
      else Py.Raises e
  end.

(** ** The notifier *)

(** What [self.notifier] offers to the monitor: the two methods that
    [handle_check_result] calls.  The attribute is untyped in the source;
    a method either returns (its value is dropped by the caller) or
    raises. *)
Record Notifier : Type := mk_notifier {
  send_alert : string -> option Z -> option string -> option Q -> Py.call unit;
  send_recovery : string -> Z -> Py.call unit
}.

Module TelegramNotifier.

Record t : Type := mk {
  bot_token : string;
  chat_id : string;
  base_url : string
}.

Definition __init__ (bot_token chat_id : string) : t :=
  {| bot_token := bot_token; chat_id := chat_id;
     base_url := "https://api.telegram.org/bot" ++ bot_token |}.

(** The JSON body of the post. *)
Record Payload : Type := mk_payload {
  payload_chat_id : string;
  payload_text : string;
  payload_parse_mode : string;
  disable_web_page_preview : bool
}.

(** What [requests.post] does: a response with a status, or a raise. *)
Inductive Post : Type :=
| Posted (status : Z)
| PostFails (e : Py.exc).

(** [response.raise_for_status()] raises [HTTPError] on 4xx and 5xx. *)
Definition raise_for_status (status : Z) : bool :=
  ((400 <=? status) && (status <? 600))%Z.

(** [send_message]: every [Exception] of the post is turned into
    [False]. *)
Definition send_message (self : t) (post : string -> Payload -> Post)
    (text : string) (parse_mode : string) : Py.call bool :=
  let url := base_url self ++ "/sendMessage" in
  let payload := mk_payload (chat_id self) text parse_mode true in
  match post url payload with
  | Posted status =>
      if raise_for_status status then Py.Returns false else Py.Returns true
  | PostFails e =>
      if Py.is_Exception e then Py.Returns false else Py.Raises e
  end.

(** The text of the down alert. *)
Definition alert_message (now : Py.datetime) (domain : string)
    (status_code : option Z) (error : option string)
    (response_time : option Q) : string :=
  let message := "🔴 <b>ПРОКСИ НЕДОСТУПЕН</b>" ++ Py.nl ++ Py.nl in
  let message := message ++ "<b>Домен:</b> " ++ domain ++ Py.nl in
  let message := message ++ "<b>Время:</b> " ++ Py.strftime now ++ Py.nl in
  let message :=
    match status_code with
    | Some c =>
        if Py.truthy_int c
        then message ++ "<b>Статус:</b> " ++ Py.str_int c ++ Py.nl
        else message
    | None => message
    end in
  let message :=
    match response_time with
    | Some r =>
        if Py.truthy_float r
        then message ++ "<b>Время ответа:</b> " ++ Py.format_2f r ++ "s" ++ Py.nl
        else message
    | None => message
    end in
  let message :=
    match error with
    | Some e =>
        if Py.truthy_str e
        then message ++ "<b>Ошибка:</b> " ++ e ++ Py.nl
        else message
    | None => message
    end in
  message ++ Py.nl ++ "⚠️ <i>Проверь сервер и DNS настройки</i>".

(** The text of the recovery notice. *)
Definition recovery_message (now : Py.datetime) (domain : string)
    (downtime_duration : Z) : string :=
  let message := "✅ <b>ПРОКСИ ВОССТАНОВЛЕН</b>" ++ Py.nl ++ Py.nl in
  let message := message ++ "<b>Домен:</b> " ++ domain ++ Py.nl in
  let message := message ++ "<b>Время:</b> " ++ Py.strftime now ++ Py.nl in
  let message :=
    message ++ "<b>Даунтайм:</b> " ++ Py.str_int downtime_duration ++ " секунд" ++ Py.nl in
  message ++ Py.nl ++ "🎉 <i>Всё работает нормально</i>".

(** [send_alert] and [send_recovery] build the text and hand it to
    [self.send_message], whose value they drop.  [send] is what
    [self.send_message] does with a text under the default parse mode:
    [send_message self post] for the class as written, anything else for
    an object that overrides the method. *)
Definition send_alert (send : string -> Py.call bool) (now : Py.datetime)
    (domain : string) (status_code : option Z) (error : option string)
    (response_time : option Q) : Py.call unit :=
  match send (alert_message now domain status_code error response_time) with
  | Py.Returns _ => Py.Returns tt
  | Py.Raises e => Py.Raises e
  end.

Definition send_recovery (send : string -> Py.call bool) (now : Py.datetime)
    (domain : string) (downtime_duration : Z) : Py.call unit :=
  match send (recovery_message now domain downtime_duration) with
  | Py.Returns _ => Py.Returns tt
  | Py.Raises e => Py.Raises e
  end.

(** A notifier object whose [send_message] behaves as [send]. *)
Definition with_send (send : string -> Py.call bool) (now : Py.datetime) : Notifier :=
  mk_notifier (send_alert send now) (send_recovery send now).

(** The notifier of the program: [TelegramNotifier(bot_token, chat_id)]
    in a world where [requests.post] behaves as [post]. *)
Definition notifier (self : t) (post : string -> Payload -> Post)
    (now : Py.datetime) : Notifier :=
  with_send (fun text => send_message self post text "HTML") now.

End TelegramNotifier.

(** ** The state machine *)

(** The event of one call: which of the two guarded blocks of
    [handle_check_result] was entered, with the values it logs and
    passes to the notifier. *)
Inductive Transition : Type :=
| NONE
| DOWN (status_code : option Z) (error : option string) (response_time : option Q)
| RECOVERED (downtime_duration : Z).

(** A call made on [self.notifier]. *)
Inductive NotifierCall : Type :=
| CallSendAlert (domain : string) (status_code : option Z)
    (error : option string) (response_time : option Q)
| CallSendRecovery (domain : string) (downtime_duration : Z).

(** What one call of [handle_check_result] leaves behind: the monitor
    when the call ends, the transition, the call made on the notifier
    with the monitor as it stood at that moment, and how the call of
    [handle_check_result] itself ended. *)
Record Handled : Type := mk_handled {
  monitor_after : ProxyMonitor;
  transition : Transition;
  invoked : option (ProxyMonitor * NotifierCall);
  ended : Py.call unit
}.

(** [float - None] raises [TypeError]. *)
Definition TypeError : Py.exc :=
  Py.mk_exc false false false true
    "unsupported operand type(s) for -: 'float' and 'NoneType'".

(** [ProxyMonitor.handle_check_result].  [notifier] is [self.notifier]
    ([None] when notifications are disabled) with the behaviour its
    methods have during this call; [now] is what [time.time()] reads. *)
Definition handle_check_result (notifier : option Notifier) (now : Q)
    (self : ProxyMonitor) (result : Outcome) : Handled :=
  if success result then
    let self := set_consecutive_failures 0 self in
    let self := set_consecutive_successes (consecutive_successes self + 1) self in
    if is_down self && (recovery_threshold self <=? consecutive_successes self)%nat then
      match downtime_start self with
      | None => mk_handled self NONE None (Py.Raises TypeError)
      | Some start =>
          let downtime_duration := Py.int (now - start) in
          let reset :=
            set_consecutive_successes 0
              (set_downtime_start None (set_is_down false self)) in
          match notifier with
          | Some n =>
              let call := CallSendRecovery (domain self) downtime_duration in
              match send_recovery n (domain self) downtime_duration with
              | Py.Returns _ =>
                  mk_handled reset (RECOVERED downtime_duration)
                    (Some (self, call)) (Py.Returns tt)
              | Py.Raises e =>
                  mk_handled self (RECOVERED downtime_duration)
                    (Some (self, call)) (Py.Raises e)
              end
          | None =>
              mk_handled reset (RECOVERED downtime_duration) None (Py.Returns tt)
          end
      end
    else mk_handled self NONE None (Py.Returns tt)
  else
    let self := set_consecutive_successes 0 self in
    let self := set_consecutive_failures (consecutive_failures self + 1) self in
    if negb (is_down self) && (failure_threshold self <=? consecutive_failures self)%nat then
      let self := set_is_down true self in
      let self := set_downtime_start (Some now) self in
      let event := DOWN (status_code result) (error result) (response_time result) in
      match notifier with
      | Some n =>
          let call :=
            CallSendAlert (domain self) (status_code result) (error result)
              (response_time result) in
          match send_alert n (domain self) (status_code result) (error result)
                  (response_time result) with
          | Py.Returns _ => mk_handled self event (Some (self, call)) (Py.Returns tt)
          | Py.Raises e => mk_handled self event (Some (self, call)) (Py.Raises e)
          end
      | None => mk_handled self event None (Py.Returns tt)
      end
    else mk_handled self NONE None (Py.Returns tt).

(** One round of the loop as far as the state machine sees it: the
    outcome of the check, the clock, and the notifier of the moment. *)
Record Tick : Type := mk_tick {
  tick_result : Outcome;
  tick_now : Q;
  tick_notifier : option Notifier
}.

Definition handle (self : ProxyMonitor) (t : Tick) : Handled :=
  handle_check_result (tick_notifier t) (tick_now t) self (tick_result t).

(** The calls of [handle_check_result] on a sequence of outcomes.  The
    loop of [run_forever] catches what a call raises and goes on with
    the same object, so each call starts from the monitor that the
    previous one left, however it ended. *)
Fixpoint feed (self : ProxyMonitor) (ticks : list Tick) : list Handled :=
  match ticks with
  | [] => []
  | t :: ticks' =>
      let h := handle self t in
      h :: feed (monitor_after h) ticks'
  end.

(** The monitor after the whole sequence. *)
Definition after (self : ProxyMonitor) (ticks : list Tick) : ProxyMonitor :=
  fold_left (fun m t => monitor_after (handle m t)) ticks self.

Definition transitions (self : ProxyMonitor) (ticks : list Tick) : list Transition :=
  map transition (feed self ticks).

(** The state in which [__init__] leaves the four mutable attributes. *)
Definition initial (m : ProxyMonitor) : Prop :=
  is_down m = false /\ downtime_start m = None /\
  consecutive_failures m = 0 /\ consecutive_successes m = 0.

Definition is_DOWN (t : Transition) : bool :=
  match t with DOWN _ _ _ => true | _ => false end.

Definition is_RECOVERED (t : Transition) : bool :=
  match t with RECOVERED _ => true | _ => false end.

(** A notifier whose two methods return on every argument. *)
Definition returns (n : Notifier) : Prop :=
  (forall d c e r, exists u, send_alert n d c e r = Py.Returns u) /\
  (forall d t, exists u, send_recovery n d t = Py.Returns u).

Definition quiet (t : Tick) : Prop :=
  forall n, tick_notifier t = Some n -> returns n.

(** The downtime window is open exactly when the monitor is down. *)
Definition window_matches (m : ProxyMonitor) : Prop :=
  downtime_start m <> None <-> is_down m = true.

Definition failing (t : Tick) : Prop := success (tick_result t) = false.

Definition passing (t : Tick) : Prop := success (tick_result t) = true.

(** A sequence after which a run of failures begins: nothing yet, or a
    success last. *)
Definition failures_begin_after (pre : list Tick) : Prop :=
  pre = [] \/ exists pre' t, pre = (pre' ++ [t])%list /\ passing t.


(** What the call on the [k]-th failure of a run (counted from 1) that
    began while the monitor was up leaves, for a failure threshold [thr]:
    the DOWN transition on the [thr]-th failure, with the fields of that
    outcome, the clock reading stored and the alert sent if there is a
    notifier; no transition on any other. *)
Definition kth_failure_handled (thr : nat) (d : string) (k : nat)
    (t : Tick) (h : Handled) : Prop :=
  is_down (monitor_after h) = (thr <=? k)%nat /\
  if (k =? thr)%nat then
    transition h =
      DOWN (status_code (tick_result t)) (error (tick_result t))
        (response_time (tick_result t)) /\
    downtime_start (monitor_after h) = Some (tick_now t) /\
    invoked h =
      match tick_notifier t with
      | Some _ =>
          Some (monitor_after h,
                CallSendAlert d (status_code (tick_result t))
                  (error (tick_result t)) (response_time (tick_result t)))
      | None => None
      end
  else transition h = NONE /\ invoked h = None.


(** ** Classes of probe errors *)

Inductive ErrorClass : Type :=
| BadStatus | TLS | TimedOut | Connection | Unexpected.

(** The class of an error message, read off its prefix as a consumer of
    the outcome would. *)
Definition class_of_message (msg : string) : option ErrorClass :=
  if Py.startswith "Bad status code:" msg then Some BadStatus
  else if Py.startswith "SSL Error:" msg then Some TLS
  else if Py.startswith "Timeout after" msg then Some TimedOut
  else if Py.startswith "Connection error:" msg then Some Connection
  else if Py.startswith "Unexpected error:" msg then Some Unexpected
  else None.

(** The class of a raised object: the first of TLS, timeout, connection
    that it is an instance of, and the rest otherwise. *)
Definition class_of_exc (e : Py.exc) : ErrorClass :=
  if Py.is_SSLError e then TLS
  else if Py.is_Timeout e then TimedOut
  else if Py.is_ConnectionError e then Connection
  else Unexpected.

(** The probe answers or raises an instance of [Exception] (everything
    but the interpreter's exit signals). *)
Definition ordinary (probe : Probe) : Prop :=
  match probe with
  | Responds _ _ => True
  | Fails e => Py.is_Exception e = true
  end.

(** ** Notification failures *)

(** The four attributes that make the state of the machine. *)
Definition same_state (a b : ProxyMonitor) : Prop :=
  is_down a = is_down b /\
  consecutive_failures a = consecutive_failures b /\
  consecutive_successes a = consecutive_successes b /\
  downtime_start a = downtime_start b.

(** A send operation that fails: it returns [False] or it raises. *)
Definition send_fails (send : string -> Py.call bool) : Prop :=
  forall text, send text = Py.Returns false \/ exists e, send text = Py.Raises e.

Definition send_succeeds (send : string -> Py.call bool) : Prop :=
  forall text, send text = Py.Returns true.

Definition send_returns (send : string -> Py.call bool) : Prop :=
  forall text, exists b, send text = Py.Returns b.

(** What [requests.post] raises is an [Exception]. *)
Definition post_ordinary
    (post : string -> TelegramNotifier.Payload -> TelegramNotifier.Post) : Prop :=
  forall u p e, post u p = TelegramNotifier.PostFails e -> Py.is_Exception e = true.

(** The monitor handling [result] with a notifier whose [send_message]
    behaves as [send]. *)
Definition handled_with (send : string -> Py.call bool) (clock : Py.datetime)
    (now : Q) (self : ProxyMonitor) (result : Outcome) : Handled :=
  handle_check_result (Some (TelegramNotifier.with_send send clock)) now self result.

(** The statement that a failing send leaves the state as a succeeding
    one would, at one state and one outcome. *)
Definition failed_send_harmless (self : ProxyMonitor) (result : Outcome)
    (now : Q) (clock : Py.datetime) (failed succeeded : string -> Py.call bool) : Prop :=
  send_fails failed -> send_succeeds succeeded ->
  same_state (monitor_after (handled_with failed clock now self result))
             (monitor_after (handled_with succeeded clock now self result)).

(** ** Fields of the down alert *)

Definition status_field (c : Z) : string := "<b>Статус:</b> " ++ Py.str_int c.

Definition response_time_field (r : Q) : string :=
  "<b>Время ответа:</b> " ++ Py.format_2f r ++ "s".

Definition error_field (e : string) : string := "<b>Ошибка:</b> " ++ e.

(** The statement that the presence of a field in the outcome decides
    its inclusion in the alert, at one input. *)
Definition alert_fields_by_presence (clock : Py.datetime) (domain : string)
    (status_code : option Z) (error : option string)
    (response_time : option Q) : Prop :=
  let message :=
    TelegramNotifier.alert_message clock domain status_code error response_time in
  Py.contains domain message = true /\
  Py.contains (Py.strftime clock) message = true /\
  (forall c, status_code = Some c -> Py.contains (status_field c) message = true) /\
  (forall r, response_time = Some r ->
             Py.contains (response_time_field r) message = true) /\
  (forall e, error = Some e -> Py.contains (error_field e) message = true).

(** ** Concrete inputs *)

(** Outcomes as [check_health] builds them, and ticks five minutes apart. *)
Definition ok_outcome : Outcome :=
  mk_outcome true (Some 200%Z) (Some (1 # 4)%Q) None "2024-05-17T12:00:00".

Definition bad_outcome : Outcome :=
  mk_outcome false (Some 503%Z) (Some (1 # 4)%Q) (Some "Bad status code: 503")
    "2024-05-17T12:00:00".

Definition silent (o : Outcome) (now : Q) : Tick := mk_tick o now None.

(** The scenario of the specification, thresholds 2 and 2: fail, fail,
    success, fail, fail, success, success. *)
Definition scenario : list Tick :=
  [ silent bad_outcome 300; silent bad_outcome 600; silent ok_outcome 900;
    silent bad_outcome 1200; silent bad_outcome 1500; silent ok_outcome 1800;
    silent ok_outcome 2100 ].


Definition three_failures : list Tick :=
  [ silent bad_outcome 300; silent bad_outcome 600; silent bad_outcome 900 ].

(** A Telegram notifier whose post is answered by status [status]. *)
Definition bot : TelegramNotifier.t := TelegramNotifier.__init__ "token" "42".

Definition noon : Py.datetime := Py.mk_datetime 2024 5 17 12 0 0.

Definition answered (status : Z) : Notifier :=
  TelegramNotifier.notifier bot (fun _ _ => TelegramNotifier.Posted status) noon.

Definition loud (o : Outcome) (now : Q) (status : Z) : Tick :=
  mk_tick o now (Some (answered status)).

Definition two_failures : list Tick :=
  [ loud bad_outcome 300 200; loud bad_outcome 600 200 ].

Definition three_successes : list Tick :=
  [ loud ok_outcome 900 200; loud ok_outcome 1200 502; loud ok_outcome 1500 200 ].

(** [ConnectTimeout] is both a [ConnectionError] and a [Timeout]. *)
Definition ConnectTimeout : Py.exc :=
  Py.mk_exc false true true true "HTTPSConnectionPool: connect timed out".

Definition fresh : ProxyMonitor := __init__ "proxy.example.com".

(** The monitor one success short of recovery: down since 600, one
    success counted. *)
Definition awaiting_recovery : ProxyMonitor :=
  after fresh (two_failures ++ [loud ok_outcome 900 200])%list.

(** A send operation that lets the error of its transport escape. *)
Definition RefusedConnection : Py.exc :=
  Py.mk_exc false false true true "Max retries exceeded".

Definition raising_send (text : string) : Py.call bool := Py.Raises RefusedConnection.

Definition refused_send (text : string) : Py.call bool := Py.Returns false.

Definition working_send (text : string) : Py.call bool := Py.Returns true.

Definition raising_notifier : Notifier := TelegramNotifier.with_send raising_send noon.

(** A failed check answered with [503] in no measurable time. *)
Definition instant_outcome : Outcome :=
  mk_outcome false (Some 503%Z) (Some 0%Q) (Some "Bad status code: 503")
    "2024-05-17T12:00:00".

(** ** Further notions on sequences of calls *)

(** The failures with which a sequence begins. *)
Fixpoint leading_failures (ticks : list Tick) : nat :=
  match ticks with
  | [] => 0
  | t :: rest =>
      if success (tick_result t) then 0 else S (leading_failures rest)
  end.

(** The failures with which a sequence ends. *)
Definition trailing_failures (ticks : list Tick) : nat :=
  leading_failures (rev ticks).

(** The call ended by returning. *)
Definition completed (h : Handled) : bool :=
  match ended h with Py.Returns _ => true | Py.Raises _ => false end.

(** The call made the RECOVERED transition and went through with it. *)
Definition is_recovery (h : Handled) : bool :=
  is_RECOVERED (transition h) && completed h.

(** What a call of [handle_check_result] raised came out of the method
    that it called on the notifier, with the arguments of that call. *)
Definition raised_by_notifier (t : Tick) (h : Handled) (e : Py.exc) : Prop :=
  exists n, tick_notifier t = Some n /\
    match invoked h with
    | Some (_, CallSendAlert d c er r) => send_alert n d c er r = Py.Raises e
    | Some (_, CallSendRecovery d dur) => send_recovery n d dur = Py.Raises e
    | None => False
    end.

(** The line of the recovery notice that gives the downtime. *)
Definition downtime_field (d : Z) : string :=
  "<b>Даунтайм:</b> " ++ Py.str_int d ++ " секунд".

(** ** The loop *)

(** What one round of the loop meets: the readings of the probe, the
    clock read by [handle_check_result], the notifier of the moment and
    what interrupts the sleep that ends the round, if anything does. *)
Record Round : Type := mk_round {
  round_isoformat : string;
  round_start : Q;
  round_probe : Probe;
  round_now : Q;
  round_notifier : option Notifier;
  round_sleep : option Py.exc
}.

(** [time.sleep] refuses a negative length. *)
Definition ValueError : Py.exc :=
  Py.mk_exc false false false true "sleep length must be non-negative".

(** What leaves an [except Exception] clause uncaught. *)
Definition uncaught (e : Py.exc) : option Py.exc :=
  if Py.is_Exception e then None else Some e.

(** The [try] block of one round with its [except Exception]: the
    monitor it leaves, the call of [handle_check_result] it made, if it
    came to it, and what escapes the block. *)
Definition attempt (self : ProxyMonitor) (r : Round)
    : ProxyMonitor * option Handled * option Py.exc :=
  match check_health self (round_isoformat r) (round_start r) (round_probe r) with
  | Py.Raises e => (self, None, uncaught e)
  | Py.Returns result =>
      let h := handle_check_result (round_notifier r) (round_now r) self result in
      (monitor_after h, Some h,
       match ended h with
       | Py.Returns _ => None
       | Py.Raises e => uncaught e
       end)
  end.

(** [time.sleep(interval)] at the end of a round, outside the [try]. *)
Definition sleep (interval : Z) (r : Round) : option Py.exc :=
  if (interval <? 0)%Z then Some ValueError else round_sleep r.

(** The loop on the rounds it is given: the monitor it leaves, what each
    round handled, and what escaped it ([None] while it is still
    looping when the rounds are used up). *)
Record Loop : Type := mk_loop {
  loop_monitor : ProxyMonitor;
  loop_handled : list (option Handled);
  loop_escaped : option Py.exc
}.

(** [ProxyMonitor.run_forever]. *)
Fixpoint run_forever (self : ProxyMonitor) (interval : Z) (rounds : list Round)
    : Loop :=
  match rounds with
  | [] => mk_loop self [] None
  | r :: rest =>
      match attempt self r with
      | (self, h, Some e) => mk_loop self [h] (Some e)
      | (self, h, None) =>
          match sleep interval r with
          | Some e => mk_loop self [h] (Some e)
          | None =>
              let l := run_forever self interval rest in
              mk_loop (loop_monitor l) (h :: loop_handled l) (loop_escaped l)
          end
      end
  end.

(** The tick that a round hands to the state machine when its check
    returns [o]. *)
Definition tick_of (r : Round) (o : Outcome) : Tick :=
  mk_tick o (round_now r) (round_notifier r).

(** The rounds and the ticks they hand to the state machine of a monitor
    whose timeout is that of [self]. *)
Definition checked (self : ProxyMonitor) (r : Round) (t : Tick) : Prop :=
  check_health self (round_isoformat r) (round_start r) (round_probe r)
  = Py.Returns (tick_result t) /\
  tick_now t = round_now r /\ tick_notifier t = round_notifier r.

(** ** The entry point *)

(** The environment variables that [main] reads.  [MONITOR_INTERVAL] is
    given with what [int] makes of its value ([None] when the variable
    is not set and the default ["300"] is read). *)
Record Environ : Type := mk_environ {
  DOMAIN : option string;
  TELEGRAM_BOT_TOKEN : option string;
  TELEGRAM_CHAT_ID : option string;
  MONITOR_INTERVAL : option (Py.call Z)
}.

(** A round as [main] meets it: the notifier is the Telegram notifier,
    given by the clock it reads and by what [requests.post] does. *)
Record Beat : Type := mk_beat {
  beat_isoformat : string;
  beat_start : Q;
  beat_probe : Probe;
  beat_now : Q;
  beat_clock : Py.datetime;
  beat_post : string -> TelegramNotifier.Payload -> TelegramNotifier.Post;
  beat_sleep : option Py.exc
}.

Record World : Type := mk_world {
  environ : Environ;
  startup_post : string -> TelegramNotifier.Payload -> TelegramNotifier.Post;
  beats : list Beat;
  final_post : string -> TelegramNotifier.Payload -> TelegramNotifier.Post;
  is_KeyboardInterrupt : Py.exc -> bool
}.

Definition round_of (notifier : option TelegramNotifier.t) (b : Beat) : Round :=
  mk_round (beat_isoformat b) (beat_start b) (beat_probe b) (beat_now b)
    (match notifier with
     | Some tn => Some (TelegramNotifier.notifier tn (beat_post b) (beat_clock b))
     | None => None
     end)
    (beat_sleep b).

(** How [main] ends: still in the loop when the beats are used up, by
    returning, by [sys.exit], or by an object that nothing catches. *)
Inductive Ending : Type :=
| Running
| Finished
| Exit (status : Z)
| Uncaught (e : Py.exc).

(** What [main] did: the texts that it handed to [send_message] itself,
    the loop it ran, if it came to it, and how it ended. *)
Record Run : Type := mk_run {
  run_sent : list string;
  run_loop : option Loop;
  run_ending : Ending
}.

Definition startup_text (domain : string) (interval : Z) : string :=
  "🚀 <b>Мониторинг запущен</b>" ++ Py.nl ++ Py.nl ++
  "<b>Домен:</b> " ++ domain ++ Py.nl ++
  "<b>Интервал:</b> " ++ Py.str_int interval ++ "s".

Definition stopped_text (domain : string) : string :=
  "⏸️ <b>Мониторинг остановлен</b>" ++ Py.nl ++ Py.nl ++ "Домен: " ++ domain.

Definition fatal_text (domain : string) (e : Py.exc) : string :=
  "💥 <b>КРИТИЧЕСКАЯ ОШИБКА</b>" ++ Py.nl ++ Py.nl ++ "Домен: " ++ domain ++ Py.nl ++
  "Ошибка: " ++ Py.exc_str e.

(** [if x:] on what [os.getenv] returns. *)
Definition set_and_not_empty (x : option string) : bool :=
  match x with
  | Some s => Py.truthy_str s
  | None => false
  end.

(** The last message of [main], in one of its two [except] clauses, and
    the ending that follows when the message has been handed over. *)
Definition farewell (w : World) (notifier : option TelegramNotifier.t)
    (sent : list string) (l : Loop) (text : string) (ending : Ending) : Run :=
  match notifier with
  | Some tn =>
      match TelegramNotifier.send_message tn (final_post w) text "HTML" with
      | Py.Returns _ => mk_run (sent ++ [text])%list (Some l) ending
      | Py.Raises e => mk_run (sent ++ [text])%list (Some l) (Uncaught e)
      end
  | None => mk_run sent (Some l) ending
  end.

(** The [try] of [main] around [run_forever], with its two [except]
    clauses. *)
Definition watch (w : World) (domain : string) (interval : Z)
    (notifier : option TelegramNotifier.t) (sent : list string) : Run :=
  let monitor := __init__ domain in
  let l := run_forever monitor interval (map (round_of notifier) (beats w)) in
  match loop_escaped l with
  | None => mk_run sent (Some l) Running
  | Some e =>
      if is_KeyboardInterrupt w e then
        farewell w notifier sent l (stopped_text domain) Finished
      else if Py.is_Exception e then
        farewell w notifier sent l (fatal_text domain e) (Exit 1)
      else mk_run sent (Some l) (Uncaught e)
  end.

(** [main]. *)
Definition main (w : World) : Run :=
  let domain := DOMAIN (environ w) in
  let bot_token := TELEGRAM_BOT_TOKEN (environ w) in
  let chat_id := TELEGRAM_CHAT_ID (environ w) in
  match
    match MONITOR_INTERVAL (environ w) with
    | Some parsed => parsed
    | None => Py.Returns 300%Z
    end
  with
  | Py.Raises e => mk_run [] None (Uncaught e)
  | Py.Returns interval =>
      if negb (set_and_not_empty domain) then mk_run [] None (Exit 1)
      else
        let domain := match domain with Some d => d | None => "" end in
        match bot_token, chat_id with
        | Some bot_token, Some chat_id =>
            if Py.truthy_str bot_token && Py.truthy_str chat_id then
              let notifier := TelegramNotifier.__init__ bot_token chat_id in
              let text := startup_text domain interval in
              match
                TelegramNotifier.send_message notifier (startup_post w) text "HTML"
              with
              | Py.Returns _ => watch w domain interval (Some notifier) [text]
              | Py.Raises e => mk_run [text] None (Uncaught e)
              end
            else watch w domain interval None []
        | _, _ => watch w domain interval None []
        end
  end.

(** A notifier that raises nothing but instances of [Exception]. *)
Definition notifier_ordinary (n : Notifier) : Prop :=
  (forall d c er r e, send_alert n d c er r = Py.Raises e -> Py.is_Exception e = true) /\
  (forall d t e, send_recovery n d t = Py.Raises e -> Py.is_Exception e = true).

(** A round in which the probe and the notifier raise nothing but
    instances of [Exception], and nothing interrupts the sleep. *)
Definition tame (r : Round) : Prop :=
  ordinary (round_probe r) /\ round_sleep r = None /\
  forall n, round_notifier r = Some n -> notifier_ordinary n.

(** Concrete rounds: a failing and a passing check, five minutes apart,
    without a notifier. *)
Definition failing_round (now : Q) : Round :=
  mk_round "2024-05-17T12:00:00" now (Responds 503 (now + (1 # 4))) (now + 1) None None.

Definition passing_round (now : Q) : Round :=
  mk_round "2024-05-17T12:00:00" now (Responds 200 (now + (1 # 4))) (now + 1) None None.

Definition timeout_round (now : Q) : Round :=
  mk_round "2024-05-17T12:00:00" now (Fails ConnectTimeout) (now + 15) None None.

Definition some_rounds : list Round :=
  [ timeout_round 0; failing_round 300; passing_round 600; passing_round 900 ].

(** A world for [main]: the target is set, the credentials are set, the
    posts are answered, nothing interrupts. *)
Definition plain_beat (now : Q) (code : Z) : Beat :=
  mk_beat "2024-05-17T12:00:00" now (Responds code (now + (1 # 4))) (now + 1) noon
    (fun _ _ => TelegramNotifier.Posted 200) None.

Definition world_with (e : Environ) : World :=
  mk_world e (fun _ _ => TelegramNotifier.Posted 200)
    [ plain_beat 0 503; plain_beat 300 503; plain_beat 600 200 ]
    (fun _ _ => TelegramNotifier.Posted 200)
    (fun _ => false).

Definition full_environ (interval : option (Py.call Z)) : Environ :=
  mk_environ (Some "proxy.example.com") (Some "token") (Some "42") interval.

(** What [int] raises on a value that is not a number. *)
Definition bad_literal : Py.exc :=
  Py.mk_exc false false false true "invalid literal for int() with base 10: '5m'".

(** Nothing was handed to the notifier in a round. *)
Definition silent_round (h : option Handled) : Prop :=
  match h with
  | Some h => invoked h = None
  | None => True
  end.

(** The variable holds a number, or is not set. *)
Definition interval_of (e : Environ) (interval : Z) : Prop :=
  match MONITOR_INTERVAL e with
  | Some parsed => parsed = Py.Returns interval
  | None => interval = 300%Z
  end.

(** The interrupt of the keyboard, which is not an [Exception]. *)
Definition KeyboardInterrupt : Py.exc := Py.mk_exc false false false false "".

Definition interrupted_beat (now : Q) (code : Z) : Beat :=
  mk_beat "2024-05-17T12:00:00" now (Responds code (now + (1 # 4))) (now + 1) noon
    (fun _ _ => TelegramNotifier.Posted 200) (Some KeyboardInterrupt).

(** A world in which the keyboard interrupts the second sleep and the
    last post is refused. *)
Definition interrupted_world : World :=
  mk_world (full_environ None) (fun _ _ => TelegramNotifier.Posted 200)
    [ plain_beat 0 503; interrupted_beat 300 503; plain_beat 600 200 ]
    (fun _ _ => TelegramNotifier.PostFails RefusedConnection)
    (fun e => negb (Py.is_Exception e)).

(** ** The recovery with a notifier that raises *)


(** Three successes handled by a notifier whose send operation raises. *)
Definition unheard (o : Outcome) (now : Q) : Tick :=
  mk_tick o now (Some raising_notifier).

Definition unheard_successes : list Tick :=
  [ unheard ok_outcome 900; unheard ok_outcome 1200; unheard ok_outcome 1500 ].

(** ** The embedding on concrete inputs *)

Example str_int_503 : Py.str_int 503 = "503".
Proof. reflexivity. Qed.

Example format_2f_samples :
  Py.format_2f (1 # 4) = "0.25" /\ Py.format_2f (12346 # 1000) = "12.35" /\
  Py.format_2f (1 # 8) = "0.12" /\ Py.format_2f 0 = "0.00" /\
  Py.format_2f (-(1 # 1000)) = "-0.00" /\ Py.format_2f (7 # 1) = "7.00".
Proof. repeat split; reflexivity. Qed.

Example strftime_sample :
  Py.strftime (Py.mk_datetime 2024 5 17 9 4 56) = "2024-05-17 09:04:56" /\
  Py.str_nat_pad 4 7 = "0007" /\ Py.str_nat_pad 2 123 = "123".
Proof. repeat split; reflexivity. Qed.

Example py_int_samples :
  Py.int (7 # 2) = 3%Z /\ Py.int (-(7 # 2)) = (-3)%Z /\ Py.int 600 = 600%Z.
Proof. repeat split; reflexivity. Qed.

Example scenario_transitions :
  transitions (__init__ "proxy.example.com") scenario
  = [ NONE; DOWN (Some 503%Z) (Some "Bad status code: 503") (Some (1 # 4)%Q);
      NONE; NONE; NONE; NONE; RECOVERED 1500 ].
Proof. reflexivity. Qed.

(** ** One call of [handle_check_result] *)

Ltac unfold_handle :=
  unfold handle, handle_check_result, set_consecutive_failures,
    set_consecutive_successes, set_is_down, set_downtime_start in *;
  cbn [domain url is_down downtime_start consecutive_failures
       consecutive_successes timeout max_response_time failure_threshold
       recovery_threshold monitor_after transition invoked ended] in *.

Ltac handle_cases :=
  unfold_handle;
  repeat match goal with
  | |- context [if ?b then _ else _] => destruct b eqn:?
  | |- context [match ?x with _ => _ end] => destruct x eqn:?
  end;
  cbn [domain url is_down downtime_start consecutive_failures
       consecutive_successes timeout max_response_time failure_threshold
       recovery_threshold monitor_after transition invoked ended] in *.

(** The configuration is never assigned. *)
Lemma handle_configuration :
  forall m t,
    failure_threshold (monitor_after (handle m t)) = failure_threshold m /\
    recovery_threshold (monitor_after (handle m t)) = recovery_threshold m /\
    domain (monitor_after (handle m t)) = domain m.
Proof. intros m t. handle_cases; auto. Qed.

(** A success zeroes the failure counter, a failure the success counter,
    whatever the monitor was and however the call ends. *)
Lemma handle_resets_other_counter :
  forall m t,
    (success (tick_result t) = true ->
     consecutive_failures (monitor_after (handle m t)) = 0) /\
    (success (tick_result t) = false ->
     consecutive_successes (monitor_after (handle m t)) = 0 /\
     consecutive_failures (monitor_after (handle m t)) = consecutive_failures m + 1).
Proof.
  intros m t. split; intros Hs; handle_cases; auto; congruence.
Qed.


(** [downtime_start] and [is_down] are assigned together. *)
Lemma handle_window_matches :
  forall m t, window_matches m -> window_matches (monitor_after (handle m t)).
Proof.
  unfold window_matches. intros m t [H1 H2].
  handle_cases; split; intros; auto; try congruence;
    try (apply H1; congruence); try (apply H2; auto).
Qed.

(** ** Sequences of calls *)

Lemma feed_app :
  forall ts1 ts2 m,
    feed m (ts1 ++ ts2)%list = (feed m ts1 ++ feed (after m ts1) ts2)%list.
Proof.
  induction ts1 as [|t ts1 IH]; intros ts2 m; [reflexivity|].
  cbn [feed app]. unfold after. cbn [fold_left]. f_equal. apply IH.
Qed.

Lemma after_app :
  forall ts1 ts2 m, after m (ts1 ++ ts2)%list = after (after m ts1) ts2.
Proof. intros. unfold after. apply fold_left_app. Qed.

Lemma after_cons :
  forall t ts m, after m (t :: ts) = after (monitor_after (handle m t)) ts.
Proof. reflexivity. Qed.

Lemma feed_length : forall ts m, List.length (feed m ts) = List.length ts.
Proof. induction ts; intros; cbn; auto. Qed.

(** A property that every call preserves holds after every call. *)
Lemma feed_invariant :
  forall (P : ProxyMonitor -> Prop),
    (forall m t, P m -> P (monitor_after (handle m t))) ->
    forall ts m, P m -> Forall (fun h => P (monitor_after h)) (feed m ts).
Proof.
  intros P step. induction ts as [|t ts IH]; intros m Hm; cbn [feed].
  - constructor.
  - constructor; [apply step, Hm | apply IH, step, Hm].
Qed.

Lemma after_invariant :
  forall (P : ProxyMonitor -> Prop),
    (forall m t, P m -> P (monitor_after (handle m t))) ->
    forall ts m, P m -> P (after m ts).
Proof.
  intros P step. induction ts as [|t ts IH]; intros m Hm; [exact Hm|].
  rewrite after_cons. apply IH, step, Hm.
Qed.

Lemma after_configuration :
  forall ts m,
    failure_threshold (after m ts) = failure_threshold m /\
    recovery_threshold (after m ts) = recovery_threshold m /\
    domain (after m ts) = domain m.
Proof.
  induction ts as [|t ts IH]; intros m; [auto|].
  rewrite after_cons.
  destruct (IH (monitor_after (handle m t))) as (a & b & c).
  destruct (handle_configuration m t) as (a' & b' & c').
  repeat split; congruence.
Qed.

Lemma init_initial : forall d, initial (__init__ d).
Proof. intros d. repeat split. Qed.

(** ** Invariants of the counters and of the downtime window *)

(** C3. Starting from the initial state, after each call of
    [handle_check_result] at most one of [consecutive_failures] and
    [consecutive_successes] is nonzero: a call on a success has zeroed
    the first, a call on a failure the second. *)
Theorem counters_never_both_nonzero :
  forall m ticks,
    initial m ->
    Forall (fun h =>
              consecutive_failures (monitor_after h) = 0 \/
              consecutive_successes (monitor_after h) = 0)
           (feed m ticks) /\
    (forall pre t,
        success (tick_result t) = true ->
        consecutive_failures (after m (pre ++ [t])%list) = 0) /\
    (forall pre t,
        success (tick_result t) = false ->
        consecutive_successes (after m (pre ++ [t])%list) = 0).
Proof.
  intros m ticks (_ & _ & Hf & Hs). split; [|split].
  - apply feed_invariant with
      (P := fun m => consecutive_failures m = 0 \/ consecutive_successes m = 0);
      [|left; exact Hf].
    intros m' t _. destruct (handle_resets_other_counter m' t) as [Ht Hff].
    destruct (success (tick_result t)); [left; auto | right; apply Hff; auto].
  - intros pre t Ht. rewrite after_app. cbn.
    apply (handle_resets_other_counter (after m pre) t); exact Ht.
  - intros pre t Ht. rewrite after_app. cbn.
    apply (handle_resets_other_counter (after m pre) t); exact Ht.
Qed.

Lemma counters_never_both_nonzero_witness :
  Forall (fun h =>
            consecutive_failures (monitor_after h) = 0 \/
            consecutive_successes (monitor_after h) = 0)
         (feed (__init__ "proxy.example.com") scenario).
Proof.
  exact (proj1 (counters_never_both_nonzero (__init__ "proxy.example.com")
                  scenario (init_initial _))).
Defined.

(** C4. Starting from the initial state, after each call of
    [handle_check_result] the attribute [downtime_start] holds a clock
    reading if and only if [is_down] is true. *)
Theorem downtime_start_set_iff_down :
  forall m ticks,
    initial m ->
    Forall (fun h =>
              downtime_start (monitor_after h) <> None <->
              is_down (monitor_after h) = true)
           (feed m ticks).
Proof.
  intros m ticks (Hd & Hs & _). apply (feed_invariant window_matches).
  - apply handle_window_matches.
  - unfold window_matches. rewrite Hd, Hs. split; congruence.
Qed.

Lemma downtime_start_set_iff_down_witness :
  Forall (fun h =>
            downtime_start (monitor_after h) <> None <->
            is_down (monitor_after h) = true)
         (feed (__init__ "proxy.example.com") scenario).
Proof.
  exact (downtime_start_set_iff_down (__init__ "proxy.example.com")
           scenario (init_initial _)).
Defined.

(** ** Runs of failures *)

(** A failure while the monitor is down changes nothing but the
    counters. *)
Lemma failure_run_while_down :
  forall fs m,
    Forall failing fs -> is_down m = true ->
    Forall (fun h => transition h = NONE /\ invoked h = None /\
                     is_down (monitor_after h) = true) (feed m fs) /\
    is_down (after m fs) = true.
Proof.
  induction fs as [|t fs IH]; intros m Hfs Hd.
  - split; [constructor | exact Hd].
  - inversion Hfs as [|? ? Ht Hfs']; subst. unfold failing in Ht.
    assert (Hstep : transition (handle m t) = NONE /\ invoked (handle m t) = None /\
                    is_down (monitor_after (handle m t)) = true).
    { unfold_handle. rewrite Ht, Hd. cbn. auto. }
    destruct (IH (monitor_after (handle m t)) Hfs' (proj2 (proj2 Hstep))) as [IH1 IH2].
    split; [cbn [feed]; constructor; assumption | rewrite after_cons; exact IH2].
Qed.

Lemma Forall_nth_error :
  forall (A : Type) (P : A -> Prop) (l : list A) i x,
    Forall P l -> nth_error l i = Some x -> P x.
Proof.
  intros A P l i x H Hn. rewrite Forall_forall in H.
  apply H. eapply nth_error_In; eauto.
Qed.

Lemma filter_none :
  forall (A : Type) (f : A -> bool) (l : list A),
    Forall (fun x => f x = false) l -> filter f l = [].
Proof.
  induction l as [|x l IH]; intros H; [reflexivity|].
  inversion H; subst. cbn. rewrite H2. auto.
Qed.

(** The first failure of a run handled while the monitor is up. *)
Lemma handle_failing_up :
  forall m t,
    failing t -> is_down m = false ->
    kth_failure_handled (failure_threshold m) (domain m)
      (if (failure_threshold m <=? consecutive_failures m + 1)%nat
       then failure_threshold m else consecutive_failures m + 1)
      t (handle m t) /\
    consecutive_failures (monitor_after (handle m t)) = consecutive_failures m + 1.
Proof.
  intros m t Ht Hd. unfold failing in Ht. unfold kth_failure_handled.
  unfold_handle. rewrite Ht, Hd. cbn [negb andb].
  destruct (failure_threshold m <=? consecutive_failures m + 1)%nat eqn:Hle.
  - rewrite Nat.eqb_refl, Nat.leb_refl.
    destruct (tick_notifier t) as [n|]; [|cbn; auto].
    destruct (send_alert n _ _ _ _); cbn; auto.
  - apply Nat.leb_gt in Hle.
    replace (_ =? _)%nat with false by (symmetry; apply Nat.eqb_neq; lia).
    cbn. repeat split; auto. symmetry. apply Nat.leb_gt. lia.
Qed.

(** A run of failures handled from a monitor that is up and has counted
    [consecutive_failures m] failures below the threshold. *)
Lemma failure_run_while_up :
  forall fs m,
    Forall failing fs -> is_down m = false ->
    consecutive_failures m < failure_threshold m ->
    (forall i t,
        nth_error fs i = Some t ->
        exists h, nth_error (feed m fs) i = Some h /\
                  kth_failure_handled (failure_threshold m) (domain m)
                    (consecutive_failures m + i + 1) t h) /\
    List.length (filter is_DOWN (transitions m fs))
    = (if (failure_threshold m <=? consecutive_failures m + List.length fs)%nat
       then 1 else 0) /\
    is_down (after m fs)
    = (failure_threshold m <=? consecutive_failures m + List.length fs)%nat.
Proof.
  induction fs as [|t fs IH]; intros m Hfs Hd Hc.
  - replace (_ <=? _)%nat with false by (symmetry; apply Nat.leb_gt; cbn; lia).
    split; [|split]; auto. intros [|i] t Hn; discriminate.
  - inversion Hfs as [|? ? Ht Hfs']; subst.
    destruct (handle_failing_up m t Ht Hd) as [Hk Hcf].
    destruct (handle_configuration m t) as (Hft & _ & Hdom).
    pose proof Hk as [Hkd Hkt].
    remember (monitor_after (handle m t)) as m' eqn:Em'.
    replace (consecutive_failures m + List.length (t :: fs))
      with (consecutive_failures m + 1 + List.length fs) by (cbn; lia).
    unfold transitions. cbn [feed map filter]. rewrite after_cons. rewrite <- Em'.
    destruct (failure_threshold m <=? consecutive_failures m + 1)%nat eqn:Hle.
    + (* the threshold is reached by this failure *)
      apply Nat.leb_le in Hle.
      assert (Hthr : failure_threshold m = consecutive_failures m + 1) by lia.
      rewrite Nat.leb_refl in Hkd. rewrite Nat.eqb_refl in Hkt.
      destruct Hkt as (Hkt & _).
      destruct (failure_run_while_down fs m' Hfs' Hkd) as [Hrest Hafter].
      split; [|split].
      * intros [|i] u Hn; cbn in Hn.
        -- inversion Hn; subst u. exists (handle m t). split; [reflexivity|].
           replace (consecutive_failures m + 0 + 1) with (failure_threshold m) by lia.
           exact Hk.
        -- destruct (nth_error (feed m' fs) i) as [h|] eqn:Hh.
           ++ exists h. split; [exact Hh|].
              destruct (Forall_nth_error _ _ _ _ _ Hrest Hh) as (a & b & c).
              unfold kth_failure_handled.
              replace (_ =? _)%nat with false by (symmetry; apply Nat.eqb_neq; lia).
              rewrite c. split; auto. symmetry. apply Nat.leb_le. lia.
           ++ apply nth_error_None in Hh. rewrite feed_length in Hh.
              assert (i < List.length fs) by (apply nth_error_Some; congruence). lia.
      * rewrite Hkt. cbn [is_DOWN List.length].
        rewrite filter_none.
        -- replace (_ <=? _)%nat with true by (symmetry; apply Nat.leb_le; lia).
           reflexivity.
        -- rewrite Forall_map. eapply Forall_impl; [|exact Hrest].
           intros h (a & _). rewrite a. reflexivity.
      * rewrite Hafter. symmetry. apply Nat.leb_le. lia.
    + (* still below the threshold *)
      apply Nat.leb_gt in Hle.
      replace (_ <=? _)%nat with false in Hkd by (symmetry; apply Nat.leb_gt; lia).
      replace (_ =? _)%nat with false in Hkt by (symmetry; apply Nat.eqb_neq; lia).
      destruct Hkt as (Hkt & _).
      assert (Hc' : consecutive_failures m' < failure_threshold m') by lia.
      destruct (IH m' Hfs' Hkd Hc') as (IH1 & IH2 & IH3).
      rewrite Hft, Hcf, Hdom in *.
      split; [|split].
      * intros [|i] u Hn; cbn in Hn.
        -- inversion Hn; subst u. exists (handle m t). split; [reflexivity|].
           replace (consecutive_failures m + 0 + 1) with (consecutive_failures m + 1) by lia.
           exact Hk.
        -- destruct (IH1 i u Hn) as (h & Hh & Hkh). exists h. split; [exact Hh|].
           replace (consecutive_failures m + S i + 1)
             with (consecutive_failures m + 1 + i + 1) by lia.
           exact Hkh.
      * rewrite Hkt. cbn [is_DOWN]. exact IH2.
      * exact IH3.
Qed.

(** Where a run of failures begins, the failure counter is zero. *)
Lemma failures_begin_at_zero :
  forall m pre,
    initial m -> failures_begin_after pre ->
    consecutive_failures (after m pre) = 0.
Proof.
  intros m pre (_ & _ & Hf & _) [-> | (pre' & t & -> & Ht)]; [exact Hf|].
  rewrite after_app. cbn.
  apply (handle_resets_other_counter (after m pre') t). exact Ht.
Qed.

(** C1. Feed any sequence of outcomes to [handle_check_result] from the
    initial state, and let a run of consecutive failures begin while the
    monitor is up.  The call on the [k]-th failure of the run makes the
    DOWN transition ([is_down] set, the clock reading stored, the alert
    sent with the fields of that outcome) exactly when [k] is the failure
    threshold, and no transition for any other [k], the
    [failure_threshold - 1]-th included; so the run holds one DOWN
    transition when it is at least [failure_threshold] long and none
    otherwise. *)
Theorem down_fires_once_per_failure_run :
  forall m pre fs,
    initial m -> 1 <= failure_threshold m ->
    failures_begin_after pre -> is_down (after m pre) = false ->
    Forall failing fs ->
    (forall i t,
        nth_error fs i = Some t ->
        exists h,
          nth_error (feed m (pre ++ fs)%list) (List.length pre + i) = Some h /\
          kth_failure_handled (failure_threshold m) (domain m) (i + 1) t h) /\
    List.length
      (filter is_DOWN (skipn (List.length pre) (transitions m (pre ++ fs)%list)))
    = (if (failure_threshold m <=? List.length fs)%nat then 1 else 0) /\
    is_down (after m (pre ++ fs)%list)
    = (failure_threshold m <=? List.length fs)%nat.
Proof.
  intros m pre fs Hinit Hthr Hpre Hup Hfs.
  pose proof (failures_begin_at_zero m pre Hinit Hpre) as Hzero.
  destruct (after_configuration pre m) as (Hft & _ & Hdom).
  assert (Hlt : consecutive_failures (after m pre) < failure_threshold (after m pre))
    by lia.
  destruct (failure_run_while_up fs (after m pre) Hfs Hup Hlt) as (H1 & H2 & H3).
  rewrite Hft, Hdom, Hzero in *. cbn [Nat.add] in *.
  split; [|split].
  - intros i t Hn. destruct (H1 i t Hn) as (h & Hh & Hk).
    exists h. split; [|exact Hk].
    rewrite feed_app, nth_error_app2 by (rewrite feed_length; lia).
    rewrite feed_length. replace (List.length pre + i - List.length pre) with i by lia.
    exact Hh.
  - unfold transitions in *. rewrite feed_app, map_app, skipn_app.
    rewrite skipn_all2 by (rewrite length_map, feed_length; lia).
    rewrite length_map, feed_length, Nat.sub_diag. cbn [skipn app]. exact H2.
  - rewrite after_app. exact H3.
Qed.

Lemma down_fires_once_per_failure_run_witness :
  (forall i t,
      nth_error three_failures i = Some t ->
      exists h,
        nth_error (feed (__init__ "proxy.example.com") ([] ++ three_failures)%list)
          (0 + i) = Some h /\
        kth_failure_handled 2 "proxy.example.com" (i + 1) t h) /\
  List.length
    (filter is_DOWN
       (skipn 0 (transitions (__init__ "proxy.example.com")
                   ([] ++ three_failures)%list))) = 1 /\
  is_down (after (__init__ "proxy.example.com") ([] ++ three_failures)%list) = true.
Proof.
  apply (down_fires_once_per_failure_run (__init__ "proxy.example.com") []
           three_failures).
  - apply init_initial.
  - cbn. lia.
  - left. reflexivity.
  - reflexivity.
  - repeat constructor.
Defined.

Example failure_below_threshold_is_silent :
  transitions (__init__ "proxy.example.com")
    [ silent ok_outcome 300; silent bad_outcome 600; silent ok_outcome 900;
      silent bad_outcome 1200; silent ok_outcome 1500 ]
  = [ NONE; NONE; NONE; NONE; NONE ].
Proof. reflexivity. Qed.

(** ** Runs of successes *)





Lemma after_window_matches :
  forall m ts, initial m -> window_matches (after m ts).
Proof.
  intros m ts (Hd & Hs & _). apply (after_invariant window_matches).
  - apply handle_window_matches.
  - unfold window_matches. rewrite Hd, Hs. split; congruence.
Qed.


(** The notifier of the program returns whatever the post does, as long
    as what the post raises is an [Exception]. *)
Lemma send_message_returns :
  forall self post text mode,
    (forall u p e, post u p = TelegramNotifier.PostFails e -> Py.is_Exception e = true) ->
    exists b, TelegramNotifier.send_message self post text mode = Py.Returns b.
Proof.
  intros self post text mode Hp. unfold TelegramNotifier.send_message.
  destruct (post _ _) as [status|e] eqn:E.
  - destruct (TelegramNotifier.raise_for_status status); eauto.
  - rewrite (Hp _ _ _ E). eauto.
Qed.

Lemma with_send_returns :
  forall send now,
    (forall text, exists b, send text = Py.Returns b) ->
    returns (TelegramNotifier.with_send send now).
Proof.
  intros send now Hs. split; intros; cbn;
    unfold TelegramNotifier.send_alert, TelegramNotifier.send_recovery;
    match goal with |- context [send ?x] => destruct (Hs x) as [b ->] end; eauto.
Qed.

Lemma telegram_notifier_returns :
  forall self post now,
    (forall u p e, post u p = TelegramNotifier.PostFails e -> Py.is_Exception e = true) ->
    returns (TelegramNotifier.notifier self post now).
Proof.
  intros self post now Hp. apply with_send_returns.
  intros text. apply send_message_returns. exact Hp.
Qed.

Lemma loud_quiet : forall o now status, quiet (loud o now status).
Proof.
  intros o now status n Hn. cbn in Hn. inversion Hn; subst n.
  apply telegram_notifier_returns. intros u p e H. discriminate H.
Qed.



Example raising_recovery_transitions :
  transitions fresh (two_failures ++ unheard_successes)%list
  = [ NONE; DOWN (Some 503%Z) (Some "Bad status code: 503") (Some (1 # 4)%Q);
      NONE; RECOVERED 600; RECOVERED 900 ] /\
  is_down (after fresh (two_failures ++ unheard_successes)%list) = true /\
  consecutive_successes (after fresh (two_failures ++ unheard_successes)%list) = 3.
Proof. vm_compute. repeat split. Qed.

Example recovery_waits_for_threshold :
  transitions (__init__ "proxy.example.com") (two_failures ++ three_successes)%list
  = [ NONE; DOWN (Some 503%Z) (Some "Bad status code: 503") (Some (1 # 4)%Q);
      NONE; RECOVERED 600; NONE ].
Proof. reflexivity. Qed.

(** ** The downtime window *)

(** The duration of a RECOVERED transition is read off the stored
    [downtime_start] and the clock of the call. *)
Lemma handle_recovered_reads_start :
  forall m t d,
    transition (handle m t) = RECOVERED d ->
    is_down m = true /\
    exists start, downtime_start m = Some start /\
                  d = Py.int (tick_now t - start).
Proof.
  intros m t d. handle_cases; intros H; try discriminate H;
    inversion H; subst d;
    match goal with
    | Hb : (_ && _)%bool = true |- _ => apply andb_prop in Hb; destruct Hb as [Hb _]
    end; split; eauto.
Qed.

(** The three things a call can do to the window: open it (DOWN), leave
    it as it is, or close it (RECOVERED and reset). *)
Lemma handle_window :
  forall m t,
    let h := handle m t in
    (is_down m = false /\ is_DOWN (transition h) = true /\
     is_down (monitor_after h) = true /\
     downtime_start (monitor_after h) = Some (tick_now t) /\
     consecutive_failures (monitor_after h) = consecutive_failures m + 1 /\
     failure_threshold m <= consecutive_failures m + 1)
    \/
    (is_DOWN (transition h) = false /\
     is_down (monitor_after h) = is_down m /\
     downtime_start (monitor_after h) = downtime_start m /\
     (is_down m = false ->
      consecutive_failures (monitor_after h) = 0 \/
      consecutive_failures (monitor_after h) = consecutive_failures m + 1 /\
      consecutive_failures m + 1 < failure_threshold m))
    \/
    (is_DOWN (transition h) = false /\ is_down m = true /\
     is_down (monitor_after h) = false /\
     consecutive_failures (monitor_after h) = 0).
Proof.
  intros m t h. subst h. unfold_handle.
  destruct (success (tick_result t)).
  - cbn [consecutive_failures consecutive_successes is_down downtime_start
         recovery_threshold].
    destruct (is_down m) eqn:Hd; cbn [andb].
    + destruct (recovery_threshold m <=? consecutive_successes m + 1)%nat.
      * destruct (downtime_start m) as [start|]; [|right; left; cbn; auto].
        destruct (tick_notifier t) as [n|]; [|right; right; cbn; auto].
        destruct (send_recovery n _ _); [right; right | right; left]; cbn; auto.
      * right; left; cbn; auto.
    + right; left; cbn; auto.
  - cbn [consecutive_failures consecutive_successes is_down downtime_start
         failure_threshold].
    destruct (is_down m) eqn:Hd; cbn [negb andb].
    + right; left; cbn; repeat split; auto. discriminate.
    + destruct (failure_threshold m <=? consecutive_failures m + 1)%nat eqn:Hle.
      * left. apply Nat.leb_le in Hle.
        destruct (tick_notifier t) as [n|]; [destruct (send_alert n _ _ _ _)|];
          cbn; auto 10.
      * right; left. apply Nat.leb_gt in Hle. cbn. auto 10.
Qed.

(** From the initial state: while the monitor is up fewer failures than
    the threshold have been counted, and while it is down the stored
    [downtime_start] is the clock reading of the call that made the
    latest DOWN transition, the one on which the failure counter
    reached the threshold; the monitor has been down ever since. *)
Lemma open_window_origin :
  forall ticks m,
    initial m -> 1 <= failure_threshold m ->
    (is_down (after m ticks) = false ->
     consecutive_failures (after m ticks) < failure_threshold m) /\
    (is_down (after m ticks) = true ->
     exists j tj hj,
       nth_error ticks j = Some tj /\
       nth_error (feed m ticks) j = Some hj /\
       is_DOWN (transition hj) = true /\
       consecutive_failures (monitor_after hj) = failure_threshold m /\
       downtime_start (after m ticks) = Some (tick_now tj) /\
       forall i hi,
         j <= i -> nth_error (feed m ticks) i = Some hi ->
         is_down (monitor_after hi) = true).
Proof.
  induction ticks as [|t pre IH] using rev_ind; intros m Hinit Hthr.
  - destruct Hinit as (Hd & _ & Hf & _). cbn. split; [lia | congruence].
  - destruct (IH m Hinit Hthr) as [IHup IHdown]. clear IH.
    destruct (after_configuration pre m) as (Hft & _ & _).
    rewrite after_app, feed_app. cbn [after fold_left feed].
    fold (after m pre).
    pose proof (handle_window (after m pre) t) as Hw. cbn zeta in Hw.
    set (s := after m pre) in *. set (h := handle s t) in *.
    assert (Hlen : List.length (feed m pre) = List.length pre) by apply feed_length.
    destruct Hw as [(Hup & Hfire & Hd' & Hst & Hcf & Hle)
                   |[(Hno & Hd' & Hst & Hcf) | (Hno & Hwas & Hd' & Hcf)]].
    + (* this call opens the window *)
      split; [congruence|]. intros _.
      exists (List.length pre), t, h. specialize (IHup Hup).
      repeat split.
      * rewrite nth_error_app2, Nat.sub_diag by lia. reflexivity.
      * rewrite nth_error_app2, Hlen, Nat.sub_diag by lia. reflexivity.
      * exact Hfire.
      * lia.
      * exact Hst.
      * intros i hi Hi Hn.
        rewrite nth_error_app2, Hlen in Hn by lia.
        destruct (i - List.length pre) as [|[|x]]; cbn in Hn; try discriminate.
        inversion Hn; subst hi. exact Hd'.
    + (* this call leaves the window as it is *)
      rewrite Hd', Hst. split.
      * intros Hup. specialize (IHup Hup). destruct (Hcf Hup) as [->|[-> ?]]; lia.
      * intros Hdown. destruct (IHdown Hdown) as (j & tj & hj & a & b & c & d & e & f).
        assert (Hj : j < List.length pre) by (apply nth_error_Some; congruence).
        exists j, tj, hj. repeat split; auto.
        -- rewrite nth_error_app1 by lia. exact a.
        -- rewrite nth_error_app1 by lia. exact b.
        -- intros i hi Hi Hn.
           destruct (Nat.lt_ge_cases i (List.length pre)) as [Hlt|Hge].
           ++ rewrite nth_error_app1 in Hn by lia. eapply f; eauto.
           ++ rewrite nth_error_app2, Hlen in Hn by lia.
              destruct (i - List.length pre) as [|[|x]]; cbn in Hn; try discriminate.
              inversion Hn; subst hi. congruence.
    + (* this call closes the window *)
      split; [intros _; lia | congruence].
Qed.

(** C5. From the initial state, the [downtime_duration] that a RECOVERED
    transition reports is the clock reading of that call minus the clock
    reading of the call that made the DOWN transition of the same
    downtime (the call on which the failure counter reached the
    threshold, the monitor staying down from it on), truncated to whole
    seconds. *)
Theorem downtime_measured_from_threshold_crossing :
  forall m ticks k h d,
    initial m -> 1 <= failure_threshold m ->
    nth_error (feed m ticks) k = Some h ->
    transition h = RECOVERED d ->
    exists j tj hj tk,
      j < k /\
      nth_error ticks j = Some tj /\ nth_error (feed m ticks) j = Some hj /\
      nth_error ticks k = Some tk /\
      is_DOWN (transition hj) = true /\
      consecutive_failures (monitor_after hj) = failure_threshold m /\
      (forall i hi,
          j <= i < k -> nth_error (feed m ticks) i = Some hi ->
          is_down (monitor_after hi) = true) /\
      d = Py.int (tick_now tk - tick_now tj).
Proof.
  intros m ticks k h d Hinit Hthr Hk Hrec.
  assert (Hlt : k < List.length ticks).
  { rewrite <- (feed_length ticks m). apply nth_error_Some. congruence. }
  destruct (nth_error ticks k) as [tk|] eqn:Htk;
    [|apply nth_error_None in Htk; lia].
  destruct (nth_error_split _ _ Htk) as (pre & post & Hsplit & Hlen).
  assert (Hh : h = handle (after m pre) tk).
  { rewrite Hsplit, feed_app, nth_error_app2 in Hk by (rewrite feed_length; lia).
    rewrite feed_length, Hlen, Nat.sub_diag in Hk. cbn in Hk. congruence. }
  subst h.
  destruct (handle_recovered_reads_start _ _ _ Hrec) as (Hdown & start & Hst & Hd).
  destruct (open_window_origin pre m Hinit Hthr) as [_ Horigin].
  destruct (Horigin Hdown) as (j & tj & hj & a & b & c & e & f & g).
  assert (Hj : j < List.length pre) by (apply nth_error_Some; congruence).
  assert (Hfl : List.length (feed m pre) = List.length pre) by apply feed_length.
  exists j, tj, hj, tk. rewrite Hsplit. repeat split.
  - lia.
  - rewrite nth_error_app1 by lia. exact a.
  - rewrite feed_app, nth_error_app1 by lia. exact b.
  - exact c.
  - exact e.
  - intros i hi [Hji Hik] Hn.
    rewrite feed_app, nth_error_app1 in Hn by lia. eapply g; eauto.
  - rewrite Hd. congruence.
Qed.

Lemma downtime_measured_from_threshold_crossing_witness :
  exists j tj hj tk,
    j < 6 /\
    nth_error scenario j = Some tj /\ nth_error (feed fresh scenario) j = Some hj /\
    nth_error scenario 6 = Some tk /\
    is_DOWN (transition hj) = true /\
    consecutive_failures (monitor_after hj) = failure_threshold fresh /\
    (forall i hi,
        j <= i < 6 -> nth_error (feed fresh scenario) i = Some hi ->
        is_down (monitor_after hi) = true) /\
    1500%Z = Py.int (tick_now tk - tick_now tj).
Proof.
  apply (downtime_measured_from_threshold_crossing fresh scenario 6
           (handle (after fresh (firstn 6 scenario)) (silent ok_outcome 2100))).
  - apply init_initial.
  - cbn. lia.
  - vm_compute. reflexivity.
  - vm_compute. reflexivity.
Defined.

(** In the scenario the first failing check is at 300 and the threshold
    is crossed at 600: the downtime reported at 2100 counts from 600. *)
Example downtime_not_from_first_failure :
  nth_error (transitions fresh scenario) 6 = Some (RECOVERED (Py.int (2100 - 600))) /\
  Py.int (2100 - 600) <> Py.int (2100 - 300).
Proof. split; [reflexivity | discriminate]. Qed.

(** ** The probe *)

(** C6. Every outcome that [check_health] returns has [success] true if
    and only if its status code is 200 and it records no error; on a
    response with another status the error is ["Bad status code: "]
    followed by the code, and [success] is false. *)
Theorem success_iff_200_and_no_error :
  forall self isoformat start_time probe o,
    check_health self isoformat start_time probe = Py.Returns o ->
    (success o = true <-> status_code o = Some 200%Z /\ error o = None) /\
    (forall code end_time,
        probe = Responds code end_time -> code <> 200%Z ->
        error o = Some ("Bad status code: " ++ Py.str_int code) /\
        success o = false /\ status_code o = Some code).
Proof.
  intros self iso start probe o H. unfold check_health in H.
  destruct probe as [code end_time|e].
  - cbn in H. destruct (code =? 200)%Z eqn:E.
    + apply Z.eqb_eq in E. subst code. inversion H; subst o; cbn.
      split; [tauto|]. intros c t Hc Hne. inversion Hc; subst. congruence.
    + apply Z.eqb_neq in E. inversion H; subst o; cbn.
      split; [split; [discriminate | intros [_ Hn]; discriminate]|].
      intros c t Hc _. inversion Hc; subst. auto.
  - split; [|intros c t Hc; discriminate Hc].
    destruct (Py.is_SSLError e); [|destruct (Py.is_Timeout e);
      [|destruct (Py.is_ConnectionError e); [|destruct (Py.is_Exception e)]]];
      try discriminate H; inversion H; subst o; cbn;
      (split; [discriminate | intros [Hn _]; discriminate]).
Qed.

Lemma success_iff_200_and_no_error_witness :
  let o := mk_outcome false (Some 503%Z) (Some (1 # 4)%Q)
             (Some "Bad status code: 503") "2024-05-17T12:00:00" in
  (success o = true <-> status_code o = Some 200%Z /\ error o = None) /\
  (forall code end_time,
      Responds 503 (5 # 4) = Responds code end_time -> code <> 200%Z ->
      error o = Some ("Bad status code: " ++ Py.str_int code) /\
      success o = false /\ status_code o = Some code).
Proof.
  apply (success_iff_200_and_no_error fresh "2024-05-17T12:00:00" 1
           (Responds 503 (5 # 4))).
  reflexivity.
Defined.

(** C7. [check_health] returns an outcome on every behaviour of the
    probe, a response or a raised [Exception]: a raise is recorded as a
    failure whose error message starts with ["SSL Error:"] for a TLS
    error, else with ["Timeout after"] for a timeout, else with
    ["Connection error:"] for a connection error, else with
    ["Unexpected error:"], and the four prefixes tell the classes
    apart. *)
Theorem check_health_never_raises :
  forall self isoformat start_time probe,
    ordinary probe ->
    exists o,
      check_health self isoformat start_time probe = Py.Returns o /\
      forall e,
        probe = Fails e ->
        success o = false /\ status_code o = None /\
        exists msg,
          error o = Some msg /\
          class_of_message msg = Some (class_of_exc e) /\
          Py.startswith
            (match class_of_exc e with
             | TLS => "SSL Error:"
             | TimedOut => "Timeout after"
             | Connection => "Connection error:"
             | _ => "Unexpected error:"
             end) msg = true.
Proof.
  intros self iso start probe Hp. unfold check_health, class_of_exc.
  destruct probe as [code end_time|e].
  - destruct (code =? 200)%Z; eexists; (split; [reflexivity|]);
      intros e He; discriminate He.
  - cbn in Hp.
    destruct (Py.is_SSLError e) eqn:E1; [|destruct (Py.is_Timeout e) eqn:E2;
      [|destruct (Py.is_ConnectionError e) eqn:E3; [|rewrite Hp]]];
      eexists; (split; [reflexivity|]);
      intros e' He'; inversion He'; subst e';
      rewrite ?E1, ?E2, ?E3; cbn;
      (split; [reflexivity|split; [reflexivity|]]);
      eexists; (split; [reflexivity|]); split; reflexivity.
Qed.

Lemma check_health_never_raises_witness :
  exists o,
    check_health fresh "2024-05-17T12:00:00" 1 (Fails ConnectTimeout) = Py.Returns o /\
    forall e,
      Fails ConnectTimeout = Fails e ->
      success o = false /\ status_code o = None /\
      exists msg,
        error o = Some msg /\
        class_of_message msg = Some (class_of_exc e) /\
        Py.startswith
          (match class_of_exc e with
           | TLS => "SSL Error:"
           | TimedOut => "Timeout after"
           | Connection => "Connection error:"
           | _ => "Unexpected error:"
           end) msg = true.
Proof.
  apply (check_health_never_raises fresh "2024-05-17T12:00:00" 1 (Fails ConnectTimeout)).
  reflexivity.
Defined.

Example connect_timeout_is_a_timeout :
  check_health fresh "2024-05-17T12:00:00" 1 (Fails ConnectTimeout)
  = Py.Returns (mk_outcome false None None (Some "Timeout after 15s")
                  "2024-05-17T12:00:00").
Proof. reflexivity. Qed.

(** ** Notification failures *)

(** The value that the send operation returns is dropped: two send
    operations that both return are handled alike. *)
Lemma handled_with_returning_send :
  forall send1 send2 clock now self result,
    send_returns send1 -> send_returns send2 ->
    handled_with send1 clock now self result = handled_with send2 clock now self result.
Proof.
  intros send1 send2 clock now self result H1 H2.
  unfold handled_with, handle_check_result.
  cbn [send_alert send_recovery TelegramNotifier.with_send].
  unfold TelegramNotifier.send_alert, TelegramNotifier.send_recovery.
  destruct (success result).
  - destruct (_ && _)%bool; [|reflexivity].
    destruct (downtime_start _) as [start|]; [|reflexivity].
    match goal with |- context [send1 ?x] => destruct (H1 x) as [? ->] end.
    match goal with |- context [send2 ?x] => destruct (H2 x) as [? ->] end.
    reflexivity.
  - destruct (_ && _)%bool; [|reflexivity].
    match goal with |- context [send1 ?x] => destruct (H1 x) as [? ->] end.
    match goal with |- context [send2 ?x] => destruct (H2 x) as [? ->] end.
    reflexivity.
Qed.

(** Outside the RECOVERED transition the monitor that a call leaves does
    not depend on the notifier at all. *)
Lemma monitor_after_outside_recovery :
  forall n1 n2 now self result,
    is_RECOVERED (transition (handle_check_result n1 now self result)) = false ->
    monitor_after (handle_check_result n1 now self result)
    = monitor_after (handle_check_result n2 now self result).
Proof.
  intros n1 n2 now self result. unfold handle_check_result.
  destruct (success result).
  - destruct (_ && _)%bool; [|reflexivity].
    destruct (downtime_start _); [|reflexivity].
    destruct n1 as [n1|]; [destruct (send_recovery n1 _ _)|]; cbn; discriminate.
  - destruct (_ && _)%bool; [|reflexivity].
    destruct n1 as [n1|], n2 as [n2|];
      repeat match goal with
      | |- context [send_alert ?n ?a ?b ?c ?d] => destruct (send_alert n a b c d)
      end; reflexivity.
Qed.

(** The claim that a send operation which raises or returns failure
    leaves the state as a successful send would fails on the monitor
    that awaits its second success: the raise leaves it down. *)
Lemma raising_send_blocks_recovery :
  ~ failed_send_harmless awaiting_recovery ok_outcome 1200 noon
      raising_send working_send.
Proof.
  intros H.
  assert (Hf : send_fails raising_send) by (intros text; right; eexists; reflexivity).
  assert (Hs : send_succeeds working_send) by (intros text; reflexivity).
  destruct (H Hf Hs) as [Hd _]. vm_compute in Hd. discriminate Hd.
Qed.

(** C8, amended. A notifier whose send operation returns failure leaves
    the monitor exactly as a successful send would, and so does one
    whose send operation raises on any call but the one that makes the
    RECOVERED transition; [TelegramNotifier.send_message] returns for
    every answer of the HTTP post and every [Exception] it raises, so
    with the notifier of the program a failed notification never alters
    the state machine nor the way the call ends. *)
Theorem failed_send_leaves_state :
  (forall self result now clock failed succeeded,
      send_succeeds succeeded ->
      send_returns failed \/
      is_RECOVERED (transition (handled_with failed clock now self result)) = false ->
      monitor_after (handled_with failed clock now self result)
      = monitor_after (handled_with succeeded clock now self result)) /\
  (forall self result now clock tn post succeeded,
      send_succeeds succeeded -> post_ordinary post ->
      handle_check_result (Some (TelegramNotifier.notifier tn post clock)) now self result
      = handled_with succeeded clock now self result).
Proof.
  split.
  - intros self result now clock failed succeeded Hs [Hr|Hn].
    + f_equal. apply handled_with_returning_send; [exact Hr|].
      intros text. rewrite Hs. eauto.
    + apply monitor_after_outside_recovery. exact Hn.
  - intros self result now clock tn post succeeded Hs Hp.
    unfold TelegramNotifier.notifier.
    apply (handled_with_returning_send _ succeeded).
    + intros text. apply send_message_returns. exact Hp.
    + intros text. rewrite Hs. eauto.
Qed.

Lemma failed_send_leaves_state_witness :
  monitor_after (handled_with refused_send noon 1200 awaiting_recovery ok_outcome)
  = monitor_after (handled_with working_send noon 1200 awaiting_recovery ok_outcome) /\
  handle_check_result
    (Some (TelegramNotifier.notifier bot
             (fun _ _ => TelegramNotifier.PostFails RefusedConnection) noon))
    1200 awaiting_recovery ok_outcome
  = handled_with working_send noon 1200 awaiting_recovery ok_outcome.
Proof.
  split.
  - apply (proj1 failed_send_leaves_state).
    + intros text. reflexivity.
    + left. intros text. exists false. reflexivity.
  - apply (proj2 failed_send_leaves_state).
    + intros text. reflexivity.
    + intros u p e H. inversion H. reflexivity.
Defined.

(** ** The text of the down alert *)

Lemma append_assoc :
  forall a b c : string, ((a ++ b) ++ c = a ++ (b ++ c))%string.
Proof. induction a as [|x a IH]; intros; cbn; [reflexivity | rewrite IH; reflexivity]. Qed.

Lemma startswith_append :
  forall p s, Py.startswith p (p ++ s) = true.
Proof.
  induction p as [|a p IH]; intros s; cbn; [reflexivity|].
  rewrite Ascii.eqb_refl. apply IH.
Qed.

Lemma startswith_append_r :
  forall p s r, Py.startswith p s = true -> Py.startswith p (s ++ r) = true.
Proof.
  induction p as [|a p IH]; intros s r H; [reflexivity|].
  destruct s as [|b s]; cbn in *; [discriminate|].
  destruct (Ascii.eqb a b); [apply IH; exact H | discriminate].
Qed.

Lemma contains_startswith :
  forall n h, Py.startswith n h = true -> Py.contains n h = true.
Proof. intros n h H. destruct h; cbn; rewrite H; reflexivity. Qed.

Lemma contains_append_l :
  forall n a h, Py.contains n h = true -> Py.contains n (a ++ h) = true.
Proof.
  induction a as [|x a IH]; intros h H; cbn [append]; [exact H|].
  cbn [Py.contains]. destruct (Py.startswith n (String x (a ++ h))); [reflexivity|].
  apply IH. exact H.
Qed.

Lemma contains_append_r :
  forall n h r, Py.contains n h = true -> Py.contains n (h ++ r) = true.
Proof.
  induction h as [|x h IH]; intros r H.
  - cbn in H. destruct (Py.startswith n "") eqn:E; [|discriminate].
    apply contains_startswith. apply (startswith_append_r n "" r E).
  - cbn [Py.contains] in H. cbn [append Py.contains].
    destruct (Py.startswith n (String x h)) eqn:E.
    + pose proof (startswith_append_r n (String x h) r E) as E'.
      cbn [append] in E'. rewrite E'. reflexivity.
    + destruct (Py.startswith n (String x (h ++ r))); [reflexivity|].
      apply IH. exact H.
Qed.

(** A text holds what it was put together from. *)
Lemma contains_middle :
  forall n a b, Py.contains n (a ++ n ++ b) = true.
Proof.
  intros n a b. apply contains_append_l, contains_startswith, startswith_append.
Qed.

Lemma contains_field :
  forall label value message rest,
    Py.contains (label ++ value) (message ++ label ++ value ++ rest) = true.
Proof.
  intros label value message rest. rewrite <- (append_assoc label value rest).
  apply contains_middle.
Qed.

(** A response read at the very clock value at which the request
    started has a response time of zero. *)
Example instant_outcome_from_check_health :
  check_health fresh "2024-05-17T12:00:00" 1 (Responds 503 1)
  = Py.Returns
      (mk_outcome false (Some 503%Z) (Some (1 - 1)%Q) (Some "Bad status code: 503")
         "2024-05-17T12:00:00") /\
  Py.truthy_float (1 - 1) = Py.truthy_float (0%Q).
Proof. split; reflexivity. Qed.

(** C9. The outcome of a check answered with 503 at the very clock value
    at which the request started has a response time, [0.0]; the alert
    that [send_alert] builds from it has no response-time line: neither
    the field nor its label occurs in the text, while the status and the
    error are shown.  The test [if response_time:] at line 57 is false
    for [0.0] as it is for [None]. *)
Theorem alert_omits_zero_response_time :
  let message :=
    TelegramNotifier.alert_message noon "proxy.example.com"
      (status_code instant_outcome) (error instant_outcome)
      (response_time instant_outcome) in
  check_health fresh "2024-05-17T12:00:00" 1 (Responds 503 1)
  = Py.Returns instant_outcome /\
  response_time instant_outcome = Some 0%Q /\
  Py.contains (response_time_field 0) message = false /\
  Py.contains "<b>Время ответа:</b>" message = false /\
  Py.contains (status_field 503) message = true /\
  Py.contains (error_field "Bad status code: 503") message = true.
Proof.
  cbv zeta. split; [vm_compute; reflexivity|].
  split; [reflexivity|].
  repeat split; vm_compute; reflexivity.
Qed.

(** The claim that presence alone decides inclusion fails on an outcome
    whose response time is zero: the alert has no response-time field. *)
Lemma zero_response_time_is_left_out :
  ~ alert_fields_by_presence noon "proxy.example.com"
      (status_code instant_outcome) (error instant_outcome)
      (response_time instant_outcome).
Proof.
  intros (_ & _ & _ & Hr & _).
  specialize (Hr 0%Q eq_refl). vm_compute in Hr. discriminate Hr.
Qed.

Example zero_response_time_leaves_no_trace :
  let message :=
    TelegramNotifier.alert_message noon "proxy.example.com"
      (status_code instant_outcome) (error instant_outcome)
      (response_time instant_outcome) in
  Py.contains "Время ответа" message = false /\
  Py.contains "0.00" message = false /\
  Py.contains (status_field 503) message = true /\
  Py.contains (error_field "Bad status code: 503") message = true.
Proof. vm_compute. repeat split. Qed.

(** What the alert does hold for every input: the target and the
    timestamp, the status code whenever the outcome has one that is not
    zero, the response time whenever the outcome has one that is not
    zero, and the error whenever the outcome has one that is not
    empty. *)
Theorem alert_fields_by_truth_value :
  forall clock domain status_code error response_time,
    let message :=
      TelegramNotifier.alert_message clock domain status_code error response_time in
    Py.contains domain message = true /\
    Py.contains (Py.strftime clock) message = true /\
    (forall c, status_code = Some c -> c <> 0%Z ->
               Py.contains (status_field c) message = true) /\
    (forall r, response_time = Some r -> ~ (r == 0)%Q ->
               Py.contains (response_time_field r) message = true) /\
    (forall e, error = Some e -> e <> "" ->
               Py.contains (error_field e) message = true).
Proof.
  intros clock domain sc err rt message. subst message.
  unfold TelegramNotifier.alert_message.
  set (m0 := ("🔴 <b>ПРОКСИ НЕДОСТУПЕН</b>" ++ Py.nl ++ Py.nl)%string).
  set (m1 := (m0 ++ "<b>Домен:</b> " ++ domain ++ Py.nl)%string).
  set (m2 := (m1 ++ "<b>Время:</b> " ++ Py.strftime clock ++ Py.nl)%string).
  set (m3 := match sc with
             | Some c => if Py.truthy_int c
                         then (m2 ++ "<b>Статус:</b> " ++ Py.str_int c ++ Py.nl)%string
                         else m2
             | None => m2 end).
  set (m4 := match rt with
             | Some r => if Py.truthy_float r
                         then (m3 ++ "<b>Время ответа:</b> " ++ Py.format_2f r
                                  ++ "s" ++ Py.nl)%string
                         else m3
             | None => m3 end).
  set (m5 := match err with
             | Some e => if Py.truthy_str e
                         then (m4 ++ "<b>Ошибка:</b> " ++ e ++ Py.nl)%string
                         else m4
             | None => m4 end).
  assert (H23 : forall n, Py.contains n m2 = true -> Py.contains n m3 = true).
  { intros n H. subst m3.
    destruct sc as [c|]; [destruct (Py.truthy_int c)|];
      [apply contains_append_r; exact H | exact H | exact H]. }
  assert (H34 : forall n, Py.contains n m3 = true -> Py.contains n m4 = true).
  { intros n H. subst m4.
    destruct rt as [r|]; [destruct (Py.truthy_float r)|];
      [apply contains_append_r; exact H | exact H | exact H]. }
  assert (H45 : forall n, Py.contains n m4 = true -> Py.contains n m5 = true).
  { intros n H. subst m5.
    destruct err as [e|]; [destruct (Py.truthy_str e)|];
      [apply contains_append_r; exact H | exact H | exact H]. }
  repeat split.
  - apply contains_append_r, H45, H34, H23, contains_append_r.
    subst m1. apply contains_append_l, contains_middle.
  - apply contains_append_r, H45, H34, H23.
    subst m2. apply contains_append_l, contains_middle.
  - intros c -> Hc. apply contains_append_r, H45, H34. subst m3.
    replace (Py.truthy_int c) with true
      by (symmetry; apply negb_true_iff, Z.eqb_neq, Hc).
    apply contains_field.
  - intros r -> Hr. apply contains_append_r, H45. subst m4.
    replace (Py.truthy_float r) with true.
    + unfold response_time_field.
      rewrite <- (append_assoc (Py.format_2f r) "s" Py.nl).
      apply contains_field.
    + symmetry. apply negb_true_iff, Z.eqb_neq. intros Hz. apply Hr.
      unfold Qeq. rewrite Hz. reflexivity.
  - intros e -> He. apply contains_append_r. subst m5.
    replace (Py.truthy_str e) with true by (destruct e; [congruence | reflexivity]).
    apply contains_field.
Qed.

Lemma alert_fields_by_truth_value_witness :
  let message :=
    TelegramNotifier.alert_message noon "proxy.example.com" (Some 503%Z)
      (Some "Bad status code: 503") (Some (1 # 4)%Q) in
  Py.contains (status_field 503) message = true /\
  Py.contains (response_time_field (1 # 4)) message = true /\
  Py.contains (error_field "Bad status code: 503") message = true.
Proof.
  destruct (alert_fields_by_truth_value noon "proxy.example.com" (Some 503%Z)
              (Some "Bad status code: 503") (Some (1 # 4)%Q))
    as (_ & _ & Hc & Hr & He).
  split; [|split].
  - apply (Hc 503%Z eq_refl). discriminate.
  - apply (Hr (1 # 4)%Q eq_refl). discriminate.
  - apply (He "Bad status code: 503" eq_refl). discriminate.
Defined.

(** ** The order of assignment and notification *)




Example raising_alert_still_marks_down :
  let h := handle_check_result (Some raising_notifier) 600
             (after fresh [silent bad_outcome 300]) bad_outcome in
  ended h = Py.Raises RefusedConnection /\
  is_down (monitor_after h) = true /\ downtime_start (monitor_after h) = Some 600%Q.
Proof. repeat split. Qed.

(** ** Further properties of the state machine *)

(** X1. While the monitor is up, successes are idle: no transition, no
    call on the notifier, a normal return, the monitor still up; the
    success counter just counts them. *)
Theorem successes_while_up_are_idle :
  forall ss m,
    is_down m = false -> Forall passing ss ->
    Forall (fun h => transition h = NONE /\ invoked h = None /\
                     ended h = Py.Returns tt /\
                     is_down (monitor_after h) = false /\
                     downtime_start (monitor_after h) = downtime_start m)
           (feed m ss) /\
    consecutive_successes (after m ss) = consecutive_successes m + List.length ss /\
    consecutive_failures (after m ss)
    = match ss with [] => consecutive_failures m | _ => 0 end.
Proof.
  induction ss as [|t ss IH]; intros m Hd Hss.
  - repeat split; [constructor | cbn; lia].
  - inversion Hss as [|? ? Ht Hss']; subst. unfold passing in Ht.
    assert (Hstep : transition (handle m t) = NONE /\ invoked (handle m t) = None /\
                    ended (handle m t) = Py.Returns tt /\
                    is_down (monitor_after (handle m t)) = false /\
                    downtime_start (monitor_after (handle m t)) = downtime_start m /\
                    consecutive_successes (monitor_after (handle m t))
                    = consecutive_successes m + 1 /\
                    consecutive_failures (monitor_after (handle m t)) = 0).
    { unfold_handle. rewrite Ht, Hd. cbn. repeat split. }
    destruct Hstep as (a & b & c & d & e & f & g).
    destruct (IH (monitor_after (handle m t)) d Hss') as (IH1 & IH2 & IH3).
    split; [|split].
    + cbn [feed]. constructor; [auto|].
      eapply Forall_impl; [|exact IH1]. cbn. intros h (h1 & h2 & h3 & h4 & h5).
      repeat split; auto. congruence.
    + rewrite after_cons, IH2, f. cbn [List.length]. lia.
    + rewrite after_cons, IH3. destruct ss; [exact g | reflexivity].
Qed.

Lemma successes_while_up_are_idle_witness :
  Forall (fun h => transition h = NONE /\ invoked h = None /\
                   ended h = Py.Returns tt /\
                   is_down (monitor_after h) = false /\
                   downtime_start (monitor_after h) = downtime_start fresh)
         (feed fresh three_successes) /\
  consecutive_successes (after fresh three_successes)
  = consecutive_successes fresh + List.length three_successes /\
  consecutive_failures (after fresh three_successes) = 0.
Proof.
  apply (successes_while_up_are_idle three_successes fresh).
  - reflexivity.
  - repeat constructor.
Defined.

(** X2. While the monitor is down, failures are idle: no transition, no
    call on the notifier, a normal return, the monitor still down and
    the start of the downtime untouched; the failure counter just counts
    them. *)
Theorem failures_while_down_are_idle :
  forall fs m,
    is_down m = true -> Forall failing fs ->
    Forall (fun h => transition h = NONE /\ invoked h = None /\
                     ended h = Py.Returns tt /\
                     is_down (monitor_after h) = true /\
                     downtime_start (monitor_after h) = downtime_start m)
           (feed m fs) /\
    consecutive_failures (after m fs) = consecutive_failures m + List.length fs /\
    consecutive_successes (after m fs)
    = match fs with [] => consecutive_successes m | _ => 0 end.
Proof.
  induction fs as [|t fs IH]; intros m Hd Hfs.
  - repeat split; [constructor | cbn; lia].
  - inversion Hfs as [|? ? Ht Hfs']; subst. unfold failing in Ht.
    assert (Hstep : transition (handle m t) = NONE /\ invoked (handle m t) = None /\
                    ended (handle m t) = Py.Returns tt /\
                    is_down (monitor_after (handle m t)) = true /\
                    downtime_start (monitor_after (handle m t)) = downtime_start m /\
                    consecutive_failures (monitor_after (handle m t))
                    = consecutive_failures m + 1 /\
                    consecutive_successes (monitor_after (handle m t)) = 0).
    { unfold_handle. rewrite Ht, Hd. cbn. repeat split. }
    destruct Hstep as (a & b & c & d & e & f & g).
    destruct (IH (monitor_after (handle m t)) d Hfs') as (IH1 & IH2 & IH3).
    split; [|split].
    + cbn [feed]. constructor; [auto|].
      eapply Forall_impl; [|exact IH1]. cbn. intros h (h1 & h2 & h3 & h4 & h5).
      repeat split; auto. congruence.
    + rewrite after_cons, IH2, f. cbn [List.length]. lia.
    + rewrite after_cons, IH3. destruct fs; [exact g | reflexivity].
Qed.

Lemma failures_while_down_are_idle_witness :
  Forall (fun h => transition h = NONE /\ invoked h = None /\
                   ended h = Py.Returns tt /\
                   is_down (monitor_after h) = true /\
                   downtime_start (monitor_after h) = downtime_start awaiting_recovery)
         (feed awaiting_recovery three_failures) /\
  consecutive_failures (after awaiting_recovery three_failures)
  = consecutive_failures awaiting_recovery + List.length three_failures /\
  consecutive_successes (after awaiting_recovery three_failures) = 0.
Proof.
  apply (failures_while_down_are_idle three_failures awaiting_recovery).
  - vm_compute. reflexivity.
  - repeat constructor.
Defined.

(** X3. From the initial state, [consecutive_failures] is the number of
    failures with which the sequence of outcomes handled so far ends,
    whatever the notifier did. *)
Theorem failure_counter_counts_trailing_failures :
  forall ticks m,
    initial m ->
    consecutive_failures (after m ticks) = trailing_failures ticks.
Proof.
  induction ticks as [|t pre IH] using rev_ind; intros m Hinit.
  - destruct Hinit as (_ & _ & Hf & _). exact Hf.
  - unfold trailing_failures. rewrite rev_app_distr. cbn [rev app leading_failures].
    rewrite after_app. cbn [after fold_left]. fold (after m pre).
    destruct (handle_resets_other_counter (after m pre) t) as [Hs Hf].
    destruct (success (tick_result t)).
    + apply Hs. reflexivity.
    + destruct (Hf eq_refl) as [_ ->]. rewrite (IH m Hinit).
      unfold trailing_failures. lia.
Qed.

Lemma failure_counter_counts_trailing_failures_witness :
  consecutive_failures (after fresh scenario) = trailing_failures scenario.
Proof.
  apply (failure_counter_counts_trailing_failures scenario fresh).
  apply init_initial.
Defined.

(** One call either makes a DOWN transition from up to down, or goes
    through with a recovery from down to up, or leaves the monitor up or
    down as it was. *)
Lemma handle_balance :
  forall m t,
    let h := handle m t in
    (is_DOWN (transition h) = true /\ is_recovery h = false /\
     is_down m = false /\ is_down (monitor_after h) = true)
    \/
    (is_DOWN (transition h) = false /\ is_recovery h = true /\
     is_down m = true /\ is_down (monitor_after h) = false)
    \/
    (is_DOWN (transition h) = false /\ is_recovery h = false /\
     is_down (monitor_after h) = is_down m).
Proof.
  intros m t h. subst h. unfold is_recovery, completed. unfold_handle.
  destruct (success (tick_result t)).
  - cbn [consecutive_failures consecutive_successes is_down downtime_start
         recovery_threshold].
    destruct (is_down m) eqn:Hd; cbn [andb].
    + destruct (recovery_threshold m <=? consecutive_successes m + 1)%nat.
      * destruct (downtime_start m) as [start|]; [|right; right; cbn; auto].
        destruct (tick_notifier t) as [n|]; [|right; left; cbn; auto].
        destruct (send_recovery n _ _); [right; left | right; right]; cbn; auto.
      * right; right; cbn; auto.
    + right; right; cbn; auto.
  - cbn [consecutive_failures consecutive_successes is_down downtime_start
         failure_threshold].
    destruct (is_down m) eqn:Hd; cbn [negb andb].
    + right; right; cbn; auto.
    + destruct (failure_threshold m <=? consecutive_failures m + 1)%nat.
      * left.
        destruct (tick_notifier t) as [n|]; [destruct (send_alert n _ _ _ _)|];
          cbn; auto.
      * right; right; cbn; auto.
Qed.

(** X4. From the initial state, the DOWN transitions made so far are as
    many as the recoveries gone through with, plus one while the monitor
    is down: alerts and recoveries alternate, an alert first. *)
Theorem down_and_recovery_alternate :
  forall ticks m,
    initial m ->
    List.length (filter is_DOWN (transitions m ticks))
    = List.length (filter is_recovery (feed m ticks))
      + (if is_down (after m ticks) then 1 else 0).
Proof.
  induction ticks as [|t pre IH] using rev_ind; intros m Hinit.
  - destruct Hinit as (Hd & _). cbn. rewrite Hd. reflexivity.
  - specialize (IH m Hinit). unfold transitions in *.
    rewrite feed_app, map_app, !filter_app, !length_app, after_app.
    cbn [feed map filter after fold_left]. fold (after m pre).
    rewrite IH.
    destruct (handle_balance (after m pre) t)
      as [(a & b & c & d) | [(a & b & c & d) | (a & b & c)]];
      cbn zeta in *; rewrite a, b; cbn [List.length].
    + rewrite c, d. lia.
    + rewrite c, d. lia.
    + rewrite c. lia.
Qed.

Lemma down_and_recovery_alternate_witness :
  List.length (filter is_DOWN (transitions fresh scenario))
  = List.length (filter is_recovery (feed fresh scenario))
    + (if is_down (after fresh scenario) then 1 else 0).
Proof.
  apply (down_and_recovery_alternate scenario fresh). apply init_initial.
Defined.

(** A call on a monitor whose window matches its state raises only what
    the notifier raised. *)
Lemma handle_raises_from_notifier :
  forall m t e,
    window_matches m ->
    ended (handle m t) = Py.Raises e ->
    raised_by_notifier t (handle m t) e.
Proof.
  intros m t e [_ Hw]. unfold raised_by_notifier. unfold_handle.
  destruct (success (tick_result t)).
  - cbn [consecutive_failures consecutive_successes is_down downtime_start
         recovery_threshold domain].
    destruct (is_down m) eqn:Hd; cbn [andb]; [|cbn; discriminate].
    destruct (recovery_threshold m <=? consecutive_successes m + 1)%nat;
      [|cbn; discriminate].
    destruct (downtime_start m) as [start|] eqn:Hst;
      [|exfalso; apply (Hw eq_refl); reflexivity].
    destruct (tick_notifier t) as [n|]; [|cbn; discriminate].
    destruct (send_recovery n _ _) eqn:Hr; cbn; [discriminate|].
    intros H. inversion H; subst. exists n. split; [reflexivity | exact Hr].
  - cbn [consecutive_failures consecutive_successes is_down downtime_start
         failure_threshold domain].
    destruct (negb (is_down m) && _)%bool; [|cbn; discriminate].
    destruct (tick_notifier t) as [n|]; [|cbn; discriminate].
    destruct (send_alert n _ _ _ _) eqn:Hr; cbn; [discriminate|].
    intros H. inversion H; subst. exists n. split; [reflexivity | exact Hr].
Qed.

(** X5. From the initial state, a call of [handle_check_result] raises
    only what the method it called on the notifier raised: without a
    notifier, or with one whose methods return, every call returns (the
    subtraction from [downtime_start] never meets [None]). *)
Theorem handle_raises_only_what_notifier_raises :
  forall m ticks,
    initial m ->
    (forall i t h e,
        nth_error ticks i = Some t -> nth_error (feed m ticks) i = Some h ->
        ended h = Py.Raises e -> raised_by_notifier t h e) /\
    (Forall quiet ticks ->
     Forall (fun h => ended h = Py.Returns tt) (feed m ticks)).
Proof.
  intros m ticks Hinit.
  assert (Hall : forall i t h e,
             nth_error ticks i = Some t -> nth_error (feed m ticks) i = Some h ->
             ended h = Py.Raises e -> raised_by_notifier t h e).
  { intros i t h e Ht Hh He.
    destruct (nth_error_split _ _ Ht) as (pre & post & Hsplit & Hlen).
    rewrite Hsplit, feed_app, nth_error_app2 in Hh by (rewrite feed_length; lia).
    rewrite feed_length, Hlen, Nat.sub_diag in Hh. cbn in Hh.
    inversion Hh; subst h.
    apply handle_raises_from_notifier; [|exact He].
    apply after_window_matches. exact Hinit. }
  split; [exact Hall|].
  intros Hq. apply Forall_forall. intros h Hin.
  destruct (In_nth_error _ _ Hin) as [i Hi].
  assert (Hlt : i < List.length ticks).
  { rewrite <- (feed_length ticks m). apply nth_error_Some. congruence. }
  destruct (nth_error ticks i) as [t|] eqn:Ht;
    [|apply nth_error_None in Ht; lia].
  destruct (ended h) as [[]|e] eqn:He; [reflexivity|].
  destruct (Hall i t h e Ht Hi He) as (n & Hn & Hraise).
  destruct (Forall_nth_error _ _ _ _ _ Hq Ht n Hn) as [Ha Hr].
  destruct (invoked h) as [[s [d c er r|d dur]]|]; [| |contradiction].
  - destruct (Ha d c er r) as [u Hu]. congruence.
  - destruct (Hr d dur) as [u Hu]. congruence.
Qed.

Lemma handle_raises_only_what_notifier_raises_witness :
  Forall (fun h => ended h = Py.Returns tt)
         (feed fresh (two_failures ++ three_successes)%list).
Proof.
  apply (proj2 (handle_raises_only_what_notifier_raises fresh
                  (two_failures ++ three_successes)%list (init_initial _))).
  repeat (constructor; [apply loud_quiet|]). constructor.
Defined.

(** X6. A call of [handle_check_result] calls the notifier exactly when
    it makes a transition and there is a notifier, once.  On DOWN the
    transition carries the status code, the error and the response time
    of the outcome handled, [send_alert] is called with the domain and
    these three fields, and the call ends as [send_alert] does.  On
    RECOVERED the duration is [int] of the clock minus the stored
    [downtime_start], [send_recovery] is called with the domain and this
    duration, and the call ends as [send_recovery] does.  Without a
    transition the notifier plays no part: the call is the one that a
    monitor without notifier makes. *)
Theorem notifier_called_exactly_on_transitions :
  forall m t,
    let h := handle m t in
    let o := tick_result t in
    match transition h with
    | NONE =>
        invoked h = None /\ h = handle m (mk_tick o (tick_now t) None)
    | DOWN c er r =>
        c = status_code o /\ er = error o /\ r = response_time o /\
        match tick_notifier t with
        | Some n =>
            invoked h
            = Some (monitor_after h,
                    CallSendAlert (domain m) (status_code o) (error o)
                      (response_time o)) /\
            ended h
            = match send_alert n (domain m) (status_code o) (error o)
                      (response_time o) with
              | Py.Returns _ => Py.Returns tt
              | Py.Raises e => Py.Raises e
              end
        | None => invoked h = None /\ ended h = Py.Returns tt
        end
    | RECOVERED d =>
        exists start,
          downtime_start m = Some start /\ d = Py.int (tick_now t - start) /\
          match tick_notifier t with
          | Some n =>
              (exists s, invoked h = Some (s, CallSendRecovery (domain m) d)) /\
              ended h
              = match send_recovery n (domain m) d with
                | Py.Returns _ => Py.Returns tt
                | Py.Raises e => Py.Raises e
                end
          | None => invoked h = None /\ ended h = Py.Returns tt
          end
    end.
Proof.
  intros m t. cbv zeta. unfold handle.
  cbn [tick_result tick_now tick_notifier]. unfold_handle.
  destruct (success (tick_result t)).
  - cbn [consecutive_failures consecutive_successes is_down downtime_start
         recovery_threshold domain].
    destruct (is_down m && _)%bool; [|split; reflexivity].
    destruct (downtime_start m) as [start|]; [|split; reflexivity].
    destruct (tick_notifier t) as [n|].
    + destruct (send_recovery n _ _) eqn:Hs; cbn;
        exists start; rewrite Hs; repeat split; eexists; reflexivity.
    + cbn. exists start. repeat split.
  - cbn [consecutive_failures consecutive_successes is_down downtime_start
         failure_threshold domain].
    destruct (negb (is_down m) && _)%bool; [|split; reflexivity].
    destruct (tick_notifier t) as [n|].
    + destruct (send_alert n _ _ _ _) eqn:Hs; cbn; try rewrite Hs; repeat split.
    + cbn. repeat split.
Qed.

(** ** Further properties of the probe *)

(** X8. An outcome of [check_health] is a failure exactly when it
    records an error, and a recorded error is never the empty string;
    the status code and the response time are recorded together, exactly
    when the request was answered, the response time being the
    difference of the two clock readings. *)
Theorem outcome_records :
  forall self isoformat start_time probe o,
    check_health self isoformat start_time probe = Py.Returns o ->
    timestamp o = isoformat /\
    (success o = false <-> error o <> None) /\
    (forall msg, error o = Some msg -> msg <> "") /\
    match probe with
    | Responds code end_time =>
        status_code o = Some code /\
        response_time o = Some (end_time - start_time)%Q
    | Fails _ => status_code o = None /\ response_time o = None
    end.
Proof.
  intros self iso start probe o H. unfold check_health in H.
  destruct probe as [code end_time|e].
  - cbn in H. destruct (code =? 200)%Z; inversion H; subst o; cbn;
      repeat split; try congruence; try discriminate.
  - destruct (Py.is_SSLError e); [|destruct (Py.is_Timeout e);
      [|destruct (Py.is_ConnectionError e); [|destruct (Py.is_Exception e)]]];
      try discriminate H; inversion H; subst o; cbn;
      repeat split; try congruence; try discriminate.
Qed.

Lemma outcome_records_witness :
  let o := mk_outcome false None None (Some "Timeout after 15s")
             "2024-05-17T12:00:00" in
  timestamp o = "2024-05-17T12:00:00" /\
  (success o = false <-> error o <> None) /\
  (forall msg, error o = Some msg -> msg <> "") /\
  status_code o = None /\ response_time o = None.
Proof.
  apply (outcome_records fresh "2024-05-17T12:00:00" 1 (Fails ConnectTimeout)).
  reflexivity.
Defined.

(** ** Further properties of the notifier *)

(** The fields that the alert shows, by the truth value of each. *)
Lemma alert_message_shows :
  forall clock domain sc err rt,
    (forall c, sc = Some c -> c <> 0%Z ->
       Py.contains (status_field c)
         (TelegramNotifier.alert_message clock domain sc err rt) = true) /\
    (forall e, err = Some e -> e <> "" ->
       Py.contains (error_field e)
         (TelegramNotifier.alert_message clock domain sc err rt) = true).
Proof.
  intros clock domain sc err rt.
  unfold TelegramNotifier.alert_message.
  set (m2 := (_ ++ "<b>Время:</b> " ++ Py.strftime clock ++ Py.nl)%string).
  set (m3 := match sc with Some c => _ | None => m2 end).
  set (m4 := match rt with Some r => _ | None => m3 end).
  set (m5 := match err with Some e => _ | None => m4 end).
  assert (H34 : forall n, Py.contains n m3 = true -> Py.contains n m4 = true).
  { intros n H. subst m4.
    destruct rt as [r|]; [destruct (Py.truthy_float r)|];
      [apply contains_append_r; exact H | exact H | exact H]. }
  assert (H45 : forall n, Py.contains n m4 = true -> Py.contains n m5 = true).
  { intros n H. subst m5.
    destruct err as [e|]; [destruct (Py.truthy_str e)|];
      [apply contains_append_r; exact H | exact H | exact H]. }
  split.
  - intros c -> Hc. apply contains_append_r, H45, H34. subst m3.
    replace (Py.truthy_int c) with true
      by (symmetry; apply negb_true_iff, Z.eqb_neq, Hc).
    apply contains_field.
  - intros e -> He. apply contains_append_r. subst m5.
    replace (Py.truthy_str e) with true by (destruct e; [congruence | reflexivity]).
    apply contains_field.
Qed.

(** X9. The alert built from a failed outcome of [check_health] always
    shows the error, and shows the status code of an answered request
    unless the code is zero: a check that failed never yields an alert
    without its cause. *)
Theorem alert_of_failed_check_shows_error :
  forall self isoformat start_time probe o clock target,
    check_health self isoformat start_time probe = Py.Returns o ->
    success o = false ->
    let message :=
      TelegramNotifier.alert_message clock target
        (status_code o) (error o) (response_time o) in
    (exists msg, error o = Some msg /\
                 Py.contains (error_field msg) message = true) /\
    (forall code end_time,
        probe = Responds code end_time -> code <> 0%Z ->
        Py.contains (status_field code) message = true).
Proof.
  intros self iso start probe o clock target H Hs message. subst message.
  destruct (alert_message_shows clock target (status_code o) (error o)
              (response_time o)) as [Hsc Herr].
  unfold check_health in H.
  destruct probe as [code end_time|e].
  - cbn in H. destruct (code =? 200)%Z; inversion H; subst o; cbn in Hs;
      [discriminate|].
    split.
    + eexists. split; [reflexivity|]. apply Herr; [reflexivity | discriminate].
    + intros c t Hc Hnz. inversion Hc; subst c t. apply Hsc; [reflexivity | exact Hnz].
  - split; [|intros c t Hc; discriminate Hc].
    destruct (Py.is_SSLError e); [|destruct (Py.is_Timeout e);
      [|destruct (Py.is_ConnectionError e); [|destruct (Py.is_Exception e)]]];
      try discriminate H; inversion H; subst o;
      (eexists; split; [reflexivity|]; apply Herr; [reflexivity | discriminate]).
Qed.

Lemma alert_of_failed_check_shows_error_witness :
  let o := mk_outcome false (Some 503%Z) (Some ((5 # 4) - 1)%Q)
             (Some "Bad status code: 503") "2024-05-17T12:00:00" in
  let message :=
    TelegramNotifier.alert_message noon "proxy.example.com"
      (status_code o) (error o) (response_time o) in
  (exists msg, error o = Some msg /\
               Py.contains (error_field msg) message = true) /\
  (forall code end_time,
      Responds 503 (5 # 4) = Responds code end_time -> code <> 0%Z ->
      Py.contains (status_field code) message = true).
Proof.
  apply (alert_of_failed_check_shows_error fresh "2024-05-17T12:00:00" 1
           (Responds 503 (5 # 4))).
  - reflexivity.
  - reflexivity.
Defined.

(** X10. Every recovery notice that [send_recovery] builds contains the
    target, the timestamp and the downtime in seconds, whatever the
    downtime is (zero and negative durations included). *)
Theorem recovery_message_fields :
  forall clock target d,
    let message := TelegramNotifier.recovery_message clock target d in
    Py.contains target message = true /\
    Py.contains (Py.strftime clock) message = true /\
    Py.contains (downtime_field d) message = true.
Proof.
  intros clock target d message. subst message.
  unfold TelegramNotifier.recovery_message.
  set (m0 := (_ ++ Py.nl ++ Py.nl)%string).
  set (m1 := (m0 ++ "<b>Домен:</b> " ++ target ++ Py.nl)%string).
  set (m2 := (m1 ++ "<b>Время:</b> " ++ Py.strftime clock ++ Py.nl)%string).
  split; [|split].
  - do 3 apply contains_append_r. subst m1.
    apply contains_append_l, contains_middle.
  - do 2 apply contains_append_r. subst m2.
    apply contains_append_l, contains_middle.
  - apply contains_append_r. unfold downtime_field.
    rewrite <- (append_assoc (Py.str_int d) " секунд" Py.nl).
    apply contains_field.
Qed.

(** X11. [send_message] reports delivery truthfully and keeps every
    [Exception] to itself: it returns [True] exactly when the post was
    answered with a status outside 400..599, [False] when the status is
    an error or the post raised an [Exception], and it raises only an
    object of the post that is not an [Exception]. *)
Theorem send_message_reports_delivery :
  forall self post text mode,
    let answer :=
      post (TelegramNotifier.base_url self ++ "/sendMessage")
        (TelegramNotifier.mk_payload (TelegramNotifier.chat_id self) text mode true) in
    (TelegramNotifier.send_message self post text mode = Py.Returns true <->
     exists status, answer = TelegramNotifier.Posted status /\
                    (status < 400 \/ 600 <= status)%Z) /\
    (TelegramNotifier.send_message self post text mode = Py.Returns false <->
     (exists status, answer = TelegramNotifier.Posted status /\
                     (400 <= status < 600)%Z) \/
     (exists e, answer = TelegramNotifier.PostFails e /\ Py.is_Exception e = true)) /\
    (forall e, TelegramNotifier.send_message self post text mode = Py.Raises e <->
               answer = TelegramNotifier.PostFails e /\ Py.is_Exception e = false).
Proof.
  intros self post text mode answer. subst answer.
  unfold TelegramNotifier.send_message, TelegramNotifier.raise_for_status.
  destruct (post _ _) as [status|e].
  - destruct (400 <=? status)%Z eqn:E1; destruct (status <? 600)%Z eqn:E2;
      cbn [andb];
      try apply Z.leb_le in E1; try apply Z.leb_gt in E1;
      try apply Z.ltb_lt in E2; try apply Z.ltb_ge in E2.
    all: split; [|split].
    all: try (split; [intros H; try discriminate H
                     |intros H; repeat match goal with
                        | H : _ \/ _ |- _ => destruct H
                        | H : exists _, _ |- _ => destruct H
                        | H : _ /\ _ |- _ => destruct H
                        | H : TelegramNotifier.Posted _ = TelegramNotifier.Posted _ |- _ =>
                            inversion H; subst; clear H
                        end; try discriminate; try lia; try reflexivity]).
    all: try (eexists; split; [reflexivity|lia]).
    all: try (left; eexists; split; [reflexivity|lia]).
    all: try (intros e; split; [discriminate | intros [H _]; discriminate H]).
  - destruct (Py.is_Exception e) eqn:E.
    + split; [|split].
      * split; [discriminate | intros (s & H & _); discriminate H].
      * split; [intros _; right; eauto | reflexivity].
      * intros e'. split; [discriminate|].
        intros [H H']. inversion H; subst. congruence.
    + split; [|split].
      * split; [discriminate | intros (s & H & _); discriminate H].
      * split; [discriminate|].
        intros [(s & H & _) | (e' & H & H')]; [discriminate H|].
        inversion H; subst. congruence.
      * intros e'. split.
        -- intros H. inversion H; subst. auto.
        -- intros [H _]. inversion H; subst. reflexivity.
Qed.

(** ** The loop *)

(** [handle_check_result] never assigns the timeout, and [check_health]
    reads nothing else of the monitor. *)
Lemma handle_timeout :
  forall n now m o, timeout (monitor_after (handle_check_result n now m o)) = timeout m.
Proof.
  intros n now m o. change (handle_check_result n now m o) with (handle m (mk_tick o now n)).
  handle_cases; reflexivity.
Qed.

Lemma check_health_reads_timeout :
  forall a b iso start probe,
    timeout a = timeout b ->
    check_health a iso start probe = check_health b iso start probe.
Proof. intros a b iso start probe H. unfold check_health. rewrite H. reflexivity. Qed.

(** What escapes the [try] block of a round is not an [Exception]. *)
Lemma attempt_escape :
  forall self r e,
    snd (attempt self r) = Some e -> Py.is_Exception e = false.
Proof.
  intros self r e. unfold attempt, uncaught.
  destruct (check_health _ _ _ _) as [o|e'].
  - cbn [snd]. destruct (ended _) as [u|e']; [discriminate|].
    destruct (Py.is_Exception e') eqn:E; [discriminate|].
    intros H; inversion H; subst; exact E.
  - cbn [snd]. destruct (Py.is_Exception e') eqn:E; [discriminate|].
    intros H; inversion H; subst; exact E.
Qed.

(** X12. With an interval that is not negative, an [Exception] leaves
    the loop only out of [time.sleep]: whatever the probe or the
    notifier raise in a round, if it is an [Exception] the loop goes on
    to the next round. *)
Theorem loop_survives_exceptions :
  forall rounds self interval e,
    (0 <= interval)%Z ->
    loop_escaped (run_forever self interval rounds) = Some e ->
    Py.is_Exception e = true ->
    exists r, In r rounds /\ round_sleep r = Some e.
Proof.
  induction rounds as [|r rest IH]; intros self interval e Hi Hesc He.
  - discriminate Hesc.
  - cbn [run_forever] in Hesc.
    destruct (attempt self r) as [[self' h] [e'|]] eqn:Ha.
    + cbn in Hesc. inversion Hesc; subst e'.
      pose proof (attempt_escape self r e) as Hn. rewrite Ha in Hn.
      specialize (Hn eq_refl). congruence.
    + unfold sleep in Hesc.
      replace (interval <? 0)%Z with false in Hesc
        by (symmetry; apply Z.ltb_ge; exact Hi).
      destruct (round_sleep r) as [e'|] eqn:Hs.
      * cbn in Hesc. inversion Hesc; subst e'. exists r. split; [left; reflexivity | exact Hs].
      * cbn in Hesc. destruct (IH self' interval e Hi Hesc He) as (r' & Hin & Hr').
        exists r'. split; [right; exact Hin | exact Hr'].
Qed.

Lemma loop_survives_exceptions_witness :
  exists r,
    In r [ timeout_round 0;
           mk_round "2024-05-17T12:05:00" 300 (Responds 200 301) 302 None
             (Some RefusedConnection) ] /\
    round_sleep r = Some RefusedConnection.
Proof.
  apply (loop_survives_exceptions
           [ timeout_round 0;
             mk_round "2024-05-17T12:05:00" 300 (Responds 200 301) 302 None
               (Some RefusedConnection) ]
           fresh 300 RefusedConnection).
  - discriminate.
  - vm_compute. reflexivity.
  - reflexivity.
Defined.

(** In a tame round the [try] block hands the outcome of the check to
    the state machine and lets nothing escape. *)
Lemma attempt_tame :
  forall self r,
    ordinary (round_probe r) ->
    (forall n, round_notifier r = Some n -> notifier_ordinary n) ->
    exists o,
      check_health self (round_isoformat r) (round_start r) (round_probe r)
      = Py.Returns o /\
      attempt self r
      = (monitor_after (handle self (tick_of r o)), Some (handle self (tick_of r o)), None).
Proof.
  intros self r Hp Hn. unfold attempt.
  assert (Hret : exists o, check_health self (round_isoformat r) (round_start r)
                             (round_probe r) = Py.Returns o).
  { unfold check_health. destruct (round_probe r) as [code end_time|e].
    - destruct (code =? 200)%Z; eauto.
    - cbn in Hp. rewrite Hp.
      destruct (Py.is_SSLError e); [eauto|].
      destruct (Py.is_Timeout e); [eauto|].
      destruct (Py.is_ConnectionError e); eauto. }
  destruct Hret as [o Ho]. exists o. split; [exact Ho|]. rewrite Ho.
  unfold handle, tick_of. cbn [tick_notifier tick_now tick_result].
  f_equal.
  destruct (ended _) as [u|e] eqn:He; [reflexivity|].
  unfold uncaught. replace (Py.is_Exception e) with true; [reflexivity|].
  symmetry. revert He. unfold handle_check_result.
  destruct (success o).
  - destruct (_ && _)%bool; [|discriminate].
    destruct (downtime_start _); [|intros H; inversion H; reflexivity].
    destruct (round_notifier r) as [n|]; [|discriminate].
    destruct (send_recovery n _ _) eqn:Hs; [discriminate|].
    intros H. cbn in H. inversion H; subst.
    destruct (Hn n eq_refl) as [_ Hr]. eapply Hr. exact Hs.
  - destruct (_ && _)%bool; [|discriminate].
    destruct (round_notifier r) as [n|]; [|discriminate].
    destruct (send_alert n _ _ _ _) eqn:Hs; [discriminate|].
    intros H. cbn in H. inversion H; subst.
    destruct (Hn n eq_refl) as [Ha _]. eapply Ha. exact Hs.
Qed.

Lemma checked_same_timeout :
  forall a b rounds ticks,
    timeout a = timeout b ->
    Forall2 (checked a) rounds ticks -> Forall2 (checked b) rounds ticks.
Proof.
  intros a b rounds ticks Ht H. induction H as [|r t rounds ticks Hc _ IH];
    constructor; [|exact IH].
  destruct Hc as (Hc & Hn & Hm). repeat split; auto.
  rewrite <- Hc. apply check_health_reads_timeout. congruence.
Qed.

(** X13. Over tame rounds and with an interval that is not negative the
    loop never ends, and it is the state machine fed with the outcomes
    of the checks, one per round and in order: the monitor it leaves and
    the calls it handled are those of [handle_check_result] on the
    outcome that [check_health] returns in each round. *)
Theorem loop_feeds_state_machine :
  forall rounds self interval,
    (0 <= interval)%Z -> Forall tame rounds ->
    exists ticks,
      Forall2 (checked self) rounds ticks /\
      loop_escaped (run_forever self interval rounds) = None /\
      loop_handled (run_forever self interval rounds) = map Some (feed self ticks) /\
      loop_monitor (run_forever self interval rounds) = after self ticks.
Proof.
  induction rounds as [|r rest IH]; intros self interval Hi Hrounds.
  - exists []. repeat split. constructor.
  - inversion Hrounds as [|? ? Hr Hrest]; subst.
    destruct (attempt_tame self r (proj1 Hr) (proj2 (proj2 Hr))) as (o & Ho & Ha).
    set (t := tick_of r o) in *. set (self' := monitor_after (handle self t)) in *.
    destruct (IH self' interval Hi Hrest) as (ticks & Hc & He & Hh & Hm).
    exists (t :: ticks). cbn [run_forever]. rewrite Ha.
    unfold sleep. replace (interval <? 0)%Z with false
      by (symmetry; apply Z.ltb_ge; exact Hi).
    destruct Hr as (_ & -> & _). cbn [loop_escaped loop_handled loop_monitor].
    split; [|split; [exact He | split]].
    + constructor.
      * repeat split. exact Ho.
      * apply (checked_same_timeout self'); [|exact Hc].
        apply handle_timeout.
    + rewrite Hh. reflexivity.
    + rewrite Hm. reflexivity.
Qed.

Lemma loop_feeds_state_machine_witness :
  exists ticks,
    Forall2 (checked fresh) some_rounds ticks /\
    loop_escaped (run_forever fresh 300 some_rounds) = None /\
    loop_handled (run_forever fresh 300 some_rounds) = map Some (feed fresh ticks) /\
    loop_monitor (run_forever fresh 300 some_rounds) = after fresh ticks.
Proof.
  apply (loop_feeds_state_machine some_rounds fresh 300).
  - discriminate.
  - repeat (constructor;
            [split; [cbn; auto | split; [reflexivity | intros n H; discriminate H]]|]).
    constructor.
Defined.

Example some_rounds_go_down_and_recover :
  is_down (loop_monitor (run_forever fresh 300 (firstn 2 some_rounds))) = true /\
  downtime_start (loop_monitor (run_forever fresh 300 (firstn 2 some_rounds)))
  = Some (301%Q) /\
  is_down (loop_monitor (run_forever fresh 300 some_rounds)) = false /\
  downtime_start (loop_monitor (run_forever fresh 300 some_rounds)) = None.
Proof. vm_compute. repeat split. Qed.

(** X14. With a negative interval the loop makes one round and ends:
    the check is made and handled, then [time.sleep] refuses the
    interval with [ValueError], outside the [try], and the error leaves
    the loop (unless the round itself let something escape before). *)
Theorem negative_interval_ends_loop :
  forall self interval r rest,
    (interval < 0)%Z ->
    let l := run_forever self interval (r :: rest) in
    List.length (loop_handled l) = 1 /\
    loop_monitor l = fst (fst (attempt self r)) /\
    loop_escaped l
    = Some (match snd (attempt self r) with Some e => e | None => ValueError end).
Proof.
  intros self interval r rest Hi l. subst l. cbn [run_forever].
  destruct (attempt self r) as [[self' h] [e|]]; cbn; [auto|].
  unfold sleep. replace (interval <? 0)%Z with true
    by (symmetry; apply Z.ltb_lt; exact Hi).
  cbn. auto.
Qed.

Lemma negative_interval_ends_loop_witness :
  let l := run_forever fresh (-5) some_rounds in
  List.length (loop_handled l) = 1 /\
  loop_monitor l = fst (fst (attempt fresh (timeout_round 0))) /\
  loop_escaped l
  = Some (match snd (attempt fresh (timeout_round 0)) with
          | Some e => e
          | None => ValueError
          end).
Proof.
  apply (negative_interval_ends_loop fresh (-5) (timeout_round 0)
           [failing_round 300; passing_round 600; passing_round 900]).
  reflexivity.
Defined.

(** ** The entry point *)

(** X15. [main] reads the interval before it looks at the target: a
    value of [MONITOR_INTERVAL] that [int] refuses ends [main] with that
    error, uncaught, whether [DOMAIN] is set or not; with a readable
    interval, a [DOMAIN] that is missing or empty ends [main] with exit
    status 1.  In both cases nothing was sent and no check was made. *)
Theorem configuration_errors_end_main :
  forall w,
    (forall e,
        MONITOR_INTERVAL (environ w) = Some (Py.Raises e) ->
        main w = mk_run [] None (Uncaught e)) /\
    (forall interval,
        interval_of (environ w) interval ->
        set_and_not_empty (DOMAIN (environ w)) = false ->
        main w = mk_run [] None (Exit 1)).
Proof.
  intros w. split.
  - intros e He. unfold main. rewrite He. reflexivity.
  - intros interval Hi Hd. unfold main. unfold interval_of in Hi.
    destruct (MONITOR_INTERVAL (environ w)) as [parsed|]; [rewrite Hi|];
      rewrite Hd; reflexivity.
Qed.

Lemma configuration_errors_end_main_witness :
  main (world_with (mk_environ None (Some "token") (Some "42")
                      (Some (Py.Raises bad_literal))))
  = mk_run [] None (Uncaught bad_literal) /\
  main (world_with (mk_environ (Some "") (Some "token") (Some "42") None))
  = mk_run [] None (Exit 1).
Proof.
  split.
  - apply (proj1 (configuration_errors_end_main _)). reflexivity.
  - apply (proj2 (configuration_errors_end_main _) 300%Z); reflexivity.
Defined.

(** Without a notifier no round hands anything to one. *)
Lemma silent_loop :
  forall rounds self interval,
    Forall (fun r => round_notifier r = None) rounds ->
    Forall silent_round (loop_handled (run_forever self interval rounds)).
Proof.
  induction rounds as [|r rest IH]; intros self interval Hn; [constructor|].
  inversion Hn as [|? ? Hr Hrest]; subst.
  assert (Hs : silent_round (snd (fst (attempt self r)))).
  { unfold attempt. destruct (check_health _ _ _ _) as [o|e]; [|exact I].
    cbn [fst snd silent_round]. rewrite Hr. unfold handle_check_result.
    destruct (success o).
    - destruct (_ && _)%bool; [|reflexivity].
      destruct (downtime_start _); reflexivity.
    - destruct (_ && _)%bool; reflexivity. }
  cbn [run_forever].
  destruct (attempt self r) as [[self' h] [e|]]; cbn [fst snd] in Hs.
  - cbn. constructor; [exact Hs | constructor].
  - destruct (sleep interval r); cbn; constructor; auto.
Qed.

Lemma watch_without_notifier :
  forall w d interval,
    run_sent (watch w d interval None []) = [] /\
    run_loop (watch w d interval None [])
    = Some (run_forever (__init__ d) interval (map (round_of None) (beats w))).
Proof.
  intros w d interval. unfold watch, farewell.
  destruct (loop_escaped _) as [e|]; [|split; reflexivity].
  destruct (is_KeyboardInterrupt w e); [split; reflexivity|].
  destruct (Py.is_Exception e); split; reflexivity.
Qed.

(** X16. When the bot token or the chat id is missing or empty, [main]
    runs the loop on the target without a notifier: it hands no text to
    [send_message], at start, in the loop or at the end, and no round
    calls a notifier. *)
Theorem without_credentials_nothing_is_sent :
  forall w interval d,
    interval_of (environ w) interval ->
    DOMAIN (environ w) = Some d -> d <> "" ->
    set_and_not_empty (TELEGRAM_BOT_TOKEN (environ w)) = false \/
    set_and_not_empty (TELEGRAM_CHAT_ID (environ w)) = false ->
    run_sent (main w) = [] /\
    run_loop (main w)
    = Some (run_forever (__init__ d) interval (map (round_of None) (beats w))) /\
    Forall silent_round
      (loop_handled (run_forever (__init__ d) interval (map (round_of None) (beats w)))).
Proof.
  intros w interval d Hi Hd Hne Hcred.
  assert (Hmain : main w = watch w d interval None []).
  { unfold main. unfold interval_of in Hi.
    destruct (MONITOR_INTERVAL (environ w)) as [parsed|];
      [rewrite Hi | subst interval];
      rewrite Hd; cbn [set_and_not_empty];
      (replace (Py.truthy_str d) with true by (destruct d; [congruence|reflexivity]));
      cbn [negb];
      destruct (TELEGRAM_BOT_TOKEN (environ w)) as [token|];
      destruct (TELEGRAM_CHAT_ID (environ w)) as [chat|];
      cbn [set_and_not_empty] in Hcred; try reflexivity;
      (replace (Py.truthy_str token && Py.truthy_str chat)%bool with false;
       [reflexivity|]);
      destruct Hcred as [H | H]; try discriminate H; rewrite H;
      [reflexivity | symmetry; apply andb_false_r | reflexivity
      | symmetry; apply andb_false_r]. }
  rewrite Hmain.
  destruct (watch_without_notifier w d interval) as [Hsent Hloop].
  split; [exact Hsent | split; [exact Hloop|]].
  apply silent_loop. apply Forall_map, Forall_forall. reflexivity.
Qed.

Lemma without_credentials_nothing_is_sent_witness :
  let w := world_with (mk_environ (Some "proxy.example.com") (Some "token") (Some "")
                         None) in
  run_sent (main w) = [] /\
  run_loop (main w)
  = Some (run_forever (__init__ "proxy.example.com") 300
            (map (round_of None) (beats w))) /\
  Forall silent_round
    (loop_handled (run_forever (__init__ "proxy.example.com") 300
                     (map (round_of None) (beats w)))).
Proof.
  apply (without_credentials_nothing_is_sent
           (world_with (mk_environ (Some "proxy.example.com") (Some "token") (Some "")
                          None)) 300%Z "proxy.example.com").
  - reflexivity.
  - reflexivity.
  - discriminate.
  - right. reflexivity.
Defined.

Lemma returns_ordinary : forall n, returns n -> notifier_ordinary n.
Proof.
  intros n [Ha Hr]. split.
  - intros d c er r e H. destruct (Ha d c er r) as [u Hu]. congruence.
  - intros d t e H. destruct (Hr d t) as [u Hu]. congruence.
Qed.

(** X17. With a negative [MONITOR_INTERVAL], a target and credentials,
    [main] announces itself, makes one check, and ends: the
    [ValueError] of [time.sleep] leaves the loop, [main] sends the
    notice of the fatal error and exits with status 1. *)
Theorem negative_interval_is_fatal :
  forall w interval d token chat b rest,
    MONITOR_INTERVAL (environ w) = Some (Py.Returns interval) ->
    (interval < 0)%Z ->
    DOMAIN (environ w) = Some d -> d <> "" ->
    TELEGRAM_BOT_TOKEN (environ w) = Some token -> token <> "" ->
    TELEGRAM_CHAT_ID (environ w) = Some chat -> chat <> "" ->
    beats w = b :: rest -> ordinary (beat_probe b) ->
    post_ordinary (startup_post w) -> post_ordinary (beat_post b) ->
    post_ordinary (final_post w) ->
    is_KeyboardInterrupt w ValueError = false ->
    run_ending (main w) = Exit 1 /\
    run_sent (main w) = [startup_text d interval; fatal_text d ValueError] /\
    exists l, run_loop (main w) = Some l /\
              List.length (loop_handled l) = 1 /\
              loop_escaped l = Some ValueError.
Proof.
  intros w interval d token chat b rest Hi Hneg Hd Hdne Ht Htne Hc Hcne Hb Hp
    Hs Hbp Hf Hki.
  unfold main. rewrite Hi, Hd, Ht, Hc. cbn [set_and_not_empty].
  replace (Py.truthy_str d) with true by (destruct d; [congruence|reflexivity]).
  replace (Py.truthy_str token) with true by (destruct token; [congruence|reflexivity]).
  replace (Py.truthy_str chat) with true by (destruct chat; [congruence|reflexivity]).
  cbn [negb andb].
  set (tn := TelegramNotifier.__init__ token chat).
  destruct (send_message_returns tn (startup_post w) (startup_text d interval) "HTML" Hs)
    as [sent ->].
  unfold watch. rewrite Hb. cbn [map run_forever].
  set (r := round_of (Some tn) b).
  assert (Hr : ordinary (round_probe r)) by exact Hp.
  assert (Hn : forall n, round_notifier r = Some n -> notifier_ordinary n).
  { intros n H. cbn in H. inversion H; subst n.
    apply returns_ordinary, telegram_notifier_returns. exact Hbp. }
  destruct (attempt_tame (__init__ d) r Hr Hn) as (o & _ & ->).
  unfold sleep. replace (interval <? 0)%Z with true
    by (symmetry; apply Z.ltb_lt; exact Hneg).
  cbn [loop_escaped]. rewrite Hki. cbn [Py.is_Exception ValueError].
  unfold farewell.
  destruct (send_message_returns tn (final_post w) (fatal_text d ValueError) "HTML" Hf)
    as [sent' ->].
  cbn. repeat split. eexists. repeat split.
Qed.

Lemma negative_interval_is_fatal_witness :
  let w := world_with (full_environ (Some (Py.Returns (-5)%Z))) in
  run_ending (main w) = Exit 1 /\
  run_sent (main w)
  = [startup_text "proxy.example.com" (-5); fatal_text "proxy.example.com" ValueError] /\
  exists l, run_loop (main w) = Some l /\
            List.length (loop_handled l) = 1 /\
            loop_escaped l = Some ValueError.
Proof.
  apply (negative_interval_is_fatal
           (world_with (full_environ (Some (Py.Returns (-5)%Z))))
           (-5)%Z "proxy.example.com" "token" "42" (plain_beat 0 503)
           [plain_beat 300 503; plain_beat 600 200]);
    try reflexivity; try discriminate; try exact I;
    intros u p e H; discriminate H.
Defined.

Lemma run_forever_app_interrupted :
  forall before self interval r rest e,
    (0 <= interval)%Z -> Forall tame before ->
    ordinary (round_probe r) ->
    (forall n, round_notifier r = Some n -> notifier_ordinary n) ->
    round_sleep r = Some e ->
    loop_escaped (run_forever self interval (before ++ r :: rest)%list) = Some e /\
    List.length (loop_handled (run_forever self interval (before ++ r :: rest)%list))
    = S (List.length before).
Proof.
  induction before as [|r0 before IH]; intros self interval r rest e Hi Hb Hp Hn Hs.
  - cbn [app run_forever].
    destruct (attempt_tame self r Hp Hn) as (o & _ & ->).
    unfold sleep. replace (interval <? 0)%Z with false
      by (symmetry; apply Z.ltb_ge; exact Hi).
    rewrite Hs. split; reflexivity.
  - inversion Hb as [|? ? Hr0 Hb']; subst.
    cbn [app run_forever].
    destruct (attempt_tame self r0 (proj1 Hr0) (proj2 (proj2 Hr0))) as (o & _ & ->).
    unfold sleep. replace (interval <? 0)%Z with false
      by (symmetry; apply Z.ltb_ge; exact Hi).
    destruct Hr0 as (_ & -> & _).
    cbn [loop_escaped loop_handled List.length].
    destruct (IH (monitor_after (handle self (tick_of r0 o))) interval r rest e
                Hi Hb' Hp Hn Hs) as [H1 H2].
    split; [exact H1 | rewrite H2; reflexivity].
Qed.

(** X18. When the keyboard interrupts a sleep of the loop, [main] ends
    by returning: the rounds up to that sleep were made, the notice that
    the monitoring stopped is handed to the notifier, and [main] returns
    whether or not that last post goes through. *)
Theorem interrupt_ends_main_quietly :
  forall w interval d token chat before b rest e,
    interval_of (environ w) interval -> (0 <= interval)%Z ->
    DOMAIN (environ w) = Some d -> d <> "" ->
    TELEGRAM_BOT_TOKEN (environ w) = Some token -> token <> "" ->
    TELEGRAM_CHAT_ID (environ w) = Some chat -> chat <> "" ->
    beats w = (before ++ b :: rest)%list ->
    Forall (fun b => ordinary (beat_probe b) /\ beat_sleep b = None /\
                     post_ordinary (beat_post b)) before ->
    ordinary (beat_probe b) -> post_ordinary (beat_post b) ->
    beat_sleep b = Some e -> is_KeyboardInterrupt w e = true ->
    post_ordinary (startup_post w) -> post_ordinary (final_post w) ->
    run_ending (main w) = Finished /\
    run_sent (main w) = [startup_text d interval; stopped_text d] /\
    exists l, run_loop (main w) = Some l /\
              List.length (loop_handled l) = S (List.length before) /\
              loop_escaped l = Some e.
Proof.
  intros w interval d token chat before b rest e Hi Hpos Hd Hdne Ht Htne Hc Hcne
    Hb Hbefore Hp Hbp Hsl Hki Hs Hf.
  set (tn := TelegramNotifier.__init__ token chat).
  assert (Hmain : main w = watch w d interval (Some tn) [startup_text d interval]).
  { unfold main. unfold interval_of in Hi.
    destruct (MONITOR_INTERVAL (environ w)) as [parsed|];
      [rewrite Hi | subst interval];
      rewrite Hd, Ht, Hc; cbn [set_and_not_empty];
      (replace (Py.truthy_str d) with true by (destruct d; [congruence|reflexivity]));
      (replace (Py.truthy_str token) with true
         by (destruct token; [congruence|reflexivity]));
      (replace (Py.truthy_str chat) with true
         by (destruct chat; [congruence|reflexivity]));
      cbn [negb andb]; fold tn;
      match goal with
      | |- context [TelegramNotifier.send_message tn (startup_post w) ?text "HTML"] =>
          destruct (send_message_returns tn (startup_post w) text "HTML" Hs) as [sent ->]
      end; reflexivity. }
  rewrite Hmain. unfold watch. rewrite Hb, map_app. cbn [map].
  assert (Htame : Forall tame (map (round_of (Some tn)) before)).
  { apply Forall_map. eapply Forall_impl; [|exact Hbefore].
    intros b0 (H1 & H2 & H3). split; [exact H1 | split; [exact H2|]].
    intros n H. cbn in H. inversion H; subst n.
    apply returns_ordinary, telegram_notifier_returns. exact H3. }
  assert (Hn : forall n, round_notifier (round_of (Some tn) b) = Some n ->
                         notifier_ordinary n).
  { intros n H. cbn in H. inversion H; subst n.
    apply returns_ordinary, telegram_notifier_returns. exact Hbp. }
  destruct (run_forever_app_interrupted (map (round_of (Some tn)) before) (__init__ d)
              interval (round_of (Some tn) b) (map (round_of (Some tn)) rest) e
              Hpos Htame Hp Hn Hsl) as [Hesc Hlen].
  rewrite length_map in Hlen.
  rewrite Hesc, Hki. unfold farewell.
  destruct (send_message_returns tn (final_post w) (stopped_text d) "HTML" Hf)
    as [sent' ->].
  cbn [run_ending run_sent run_loop app]. repeat split.
  eexists. split; [reflexivity|]. split; [exact Hlen | exact Hesc].
Qed.

Lemma interrupt_ends_main_quietly_witness :
  run_ending (main interrupted_world) = Finished /\
  run_sent (main interrupted_world)
  = [startup_text "proxy.example.com" 300; stopped_text "proxy.example.com"] /\
  exists l, run_loop (main interrupted_world) = Some l /\
            List.length (loop_handled l) = 2 /\
            loop_escaped l = Some KeyboardInterrupt.
Proof.
  apply (interrupt_ends_main_quietly interrupted_world 300%Z "proxy.example.com"
           "token" "42" [plain_beat 0 503] (interrupted_beat 300 503)
           [plain_beat 600 200] KeyboardInterrupt).
  - reflexivity.
  - discriminate.
  - reflexivity.
  - discriminate.
  - reflexivity.
  - discriminate.
  - reflexivity.
  - discriminate.
  - reflexivity.
  - constructor; [|constructor].
    split; [exact I | split; [reflexivity | intros u p e H; discriminate H]].
  - exact I.
  - intros u p e H; discriminate H.
  - reflexivity.
  - reflexivity.
  - intros u p e H; discriminate H.
  - intros u p e H. inversion H. reflexivity.
Defined.
